(** * Civic Issue Reporter: the [/api/analyze] handler of [backend_api_gemini.py]

    A shallow embedding of [analyze_issue]: request validation, prompt
    construction, extraction of the JSON candidate from the model's reply,
    and construction of the report dictionary, together with the handler's
    [try]/[except] structure.

    Python [str] values are modelled by [string], one [ascii] standing for one
    character; Python [dict]s with string keys by [gmap string _]. The body of
    a request is a JSON object whose fields are strings, as the handler's
    docstring has it. The libraries the handler calls (base64, PIL, the
    Gemini client, json, datetime) are parameters, gathered in [Externals]. *)

From Stdlib Require Import ZArith Ascii String List Lia.
From stdpp Require Import base option gmap strings list fin_maps pretty.

Local Open Scope string_scope.
Local Open Scope Z_scope.

(** ** Python string primitives *)

Module PyStr.

(** [s.find(c)] for a one-character needle: the lowest index, or [-1]. *)
Fixpoint find (c : ascii) (s : string) : Z :=
  match s with
  | EmptyString => -1
  | String a s' =>
      if Ascii.eqb a c then 0
      else let r := find c s' in if r =? -1 then -1 else r + 1
  end.

(** [s.rfind(c)] for a one-character needle: the highest index, or [-1]. *)
Fixpoint rfind (c : ascii) (s : string) : Z :=
  match s with
  | EmptyString => -1
  | String a s' =>
      let r := rfind c s' in
      if r =? -1 then (if Ascii.eqb a c then 0 else -1) else r + 1
  end.

Fixpoint take (n : nat) (s : string) : string :=
  match n, s with
  | S n', String a s' => String a (take n' s')
  | _, _ => EmptyString
  end.

Fixpoint drop (n : nat) (s : string) : string :=
  match n, s with
  | S n', String _ s' => drop n' s'
  | _, _ => s
  end.

Definition len (s : string) : Z := Z.of_nat (String.length s).

(** A slice bound as Python clamps it: negative bounds count from the end,
    and the result is confined to [0 .. len s]. *)
Definition clamp (s : string) (i : Z) : Z :=
  let i := if i <? 0 then i + len s else i in
  if i <? 0 then 0 else if len s <? i then len s else i.

(** [s[a:b]] *)
Definition slice (a b : Z) (s : string) : string :=
  let a' := clamp s a in
  let b' := clamp s b in
  take (Z.to_nat (b' - a')) (drop (Z.to_nat a') s).

(** [s[:b]] *)
Definition prefix (b : Z) (s : string) : string := slice 0 b s.

(** [c in s] for a one-character needle. *)
Fixpoint contains (c : ascii) (s : string) : bool :=
  match s with
  | EmptyString => false
  | String a s' => Ascii.eqb a c || contains c s'
  end.

(** [s.split(c)]: the segments between the occurrences of [c]; never empty. *)
Fixpoint split (c : ascii) (s : string) : list string :=
  match s with
  | EmptyString => [EmptyString]
  | String a s' =>
      if Ascii.eqb a c then EmptyString :: split c s'
      else match split c s' with
           | seg :: rest => String a seg :: rest
           | [] => [String a EmptyString]
           end
  end.

(** Truth value of a string: non-empty. *)
Definition truthy (s : string) : bool :=
  match s with EmptyString => false | _ => true end.

End PyStr.

(** ** JSON values, as [json.loads] returns them and [jsonify] accepts them *)

#[warnings="-register-all"]
Inductive json : Type :=
  | JNull
  | JBool (b : bool)
  | JInt (n : Z)
  | JFloat (literal : string)
  | JStr (s : string)
  | JList (items : list json)
  | JDict (fields : gmap string json).

(** The name Python prints for the type of a value, as in
    ['list' object has no attribute 'get']. *)
Definition type_name (v : json) : string :=
  match v with
  | JNull => "NoneType"
  | JBool _ => "bool"
  | JInt _ => "int"
  | JFloat _ => "float"
  | JStr _ => "str"
  | JList _ => "list"
  | JDict _ => "dict"
  end.

Definition is_dict (v : json) : bool :=
  match v with JDict _ => true | _ => false end.

Definition nl : string := String (ascii_of_nat 10) EmptyString.
Definition dq : string := String (ascii_of_nat 34) EmptyString.

(** ** Module constants *)

Definition ANALYSIS_PROMPT : string :=
  String.concat nl
  [ "You are an AI assistant for a civic issue reporting system in Pakistan. "
  ; "Analyze the provided image and/or description of a public infrastructure problem."
  ; EmptyString
  ; "Your task:"
  ; "1. Classify the type of issue (Road Infrastructure, Water & Sanitation, Electrical, Waste Management, etc.)"
  ; "2. Assess severity level (critical, high, medium, low)"
  ; "3. Determine urgency (Emergency/Immediate/Priority/Monitor)"
  ; "4. Identify safety warnings"
  ; "5. Recommend specific actions for municipal authorities"
  ; "6. Assign to appropriate department"
  ; EmptyString
  ; "Respond ONLY with a valid JSON object in this exact format:"
  ; "{"
  ; "  " ++ dq ++ "issue_classification" ++ dq ++ ": {"
  ; "    " ++ dq ++ "type" ++ dq ++ ": " ++ dq ++ "string - category of issue" ++ dq ++ ","
  ; "    " ++ dq ++ "severity" ++ dq ++ ": " ++ dq ++ "critical/high/medium/low" ++ dq ++ ","
  ; "    " ++ dq ++ "urgency" ++ dq ++ ": " ++ dq ++ "string - when action needed" ++ dq
  ; "  },"
  ; "  " ++ dq ++ "ai_analysis" ++ dq ++ ": {"
  ; "    " ++ dq ++ "detected_elements" ++ dq ++ ": [" ++ dq ++ "array of visual/textual observations" ++ dq ++ "],"
  ; "    " ++ dq ++ "risk_level" ++ dq ++ ": " ++ dq ++ "critical/high/medium/low" ++ dq ++ ","
  ; "    " ++ dq ++ "estimated_impact" ++ dq ++ ": " ++ dq ++ "string - who/what is affected" ++ dq
  ; "  },"
  ; "  " ++ dq ++ "recommended_actions" ++ dq ++ ": [" ++ dq ++ "array of specific action items" ++ dq ++ "],"
  ; "  " ++ dq ++ "safety_warnings" ++ dq ++ ": [" ++ dq ++ "array of safety concerns" ++ dq ++ "],"
  ; "  " ++ dq ++ "priority_score" ++ dq ++ ": number (0-100),"
  ; "  " ++ dq ++ "assigned_department" ++ dq ++ ": " ++ dq ++ "string - which government department" ++ dq ++ ","
  ; "  " ++ dq ++ "reasoning" ++ dq ++ ": " ++ dq ++ "brief explanation of your analysis" ++ dq
  ; "}"
  ; EmptyString
  ; "Consider Pakistani context: common infrastructure issues, local government departments (WASA, CDA, LDA, etc.), and urgent safety concerns." ].

(** The [generation_config] literal passed to [model.generate_content]. *)
Definition generation_config : gmap string json :=
  {[ "temperature" := JFloat "0.4";
     "top_p" := JFloat "0.95";
     "top_k" := JInt 40;
     "max_output_tokens" := JInt 2048 ]}.

(** ** External collaborators

    The libraries the handler calls. A failing call is [inl msg], where [msg]
    is what [str(e)] gives for the exception raised. *)

Inductive part (image : Type) : Type :=
  | PText (text : string)
  | PImage (img : image).
Arguments PText {image} text.
Arguments PImage {image} img.

Class Externals := {
  image : Type;                                   (* PIL.Image.Image *)
  datetime : Type;                                (* datetime.datetime *)
  b64decode : string -> string + list Byte.byte;  (* base64.b64decode *)
  Image_open : list Byte.byte -> string + image;  (* Image.open(io.BytesIO(_)) *)
  (* model.generate_content(parts, generation_config=_).text *)
  generate_content : list (part image) -> gmap string json -> string + string;
  json_loads : string -> string + json;           (* inl: json.JSONDecodeError *)
  datetime_now : nat -> datetime;                 (* the n-th reading of the clock *)
  strftime : datetime -> string -> string;
  isoformat : datetime -> string
}.

(** ** The handler's control flow: local state and exceptions *)

(** The two exception classes the handler's [except] clauses tell apart; the
    payload is [str(e)]. *)
Inductive exn : Type :=
  | JSONDecodeError (msg : string)
  | Exception (msg : string).

(** What the body of the [try] block mutates and the [except] clauses can
    still see: the local variable [ai_response] ([None] while unbound), and the
    number of times the clock has been read. *)
Record frame : Type := Frame {
  ai_response : option string;
  clock_reads : nat
}.

Definition M (A : Type) : Type := frame -> frame * (exn + A).

Definition ret {A} (a : A) : M A := fun st => (st, inr a).

Definition raise {A} (e : exn) : M A := fun st => (st, inl e).

Definition bind {A B} (m : M A) (k : A -> M B) : M B :=
  fun st =>
    match m st with
    | (st', inr a) => k a st'
    | (st', inl e) => (st', inl e)
    end.

Notation "x <- m ;; k" := (bind m (fun x => k))
  (at level 100, m at next level, right associativity).
Notation "m ;;; k" := (bind m (fun _ => k))
  (at level 100, right associativity).

(** A library call that raises an ordinary exception on failure. *)
Definition call {A} (r : string + A) : M A :=
  match r with
  | inl msg => raise (Exception msg)
  | inr a => ret a
  end.

(** [ai_response = v] *)
Definition set_ai_response (v : string) : M unit :=
  fun st => (Frame (Some v) (clock_reads st), inr tt).

(** Reading the local variable [ai_response]. *)
Definition get_ai_response : M string :=
  fun st =>
    match ai_response st with
    | Some v => (st, inr v)
    | None =>
        (st, inl (Exception
          "cannot access local variable 'ai_response' where it is not associated with a value"))
    end.

(** ** The HTTP response: [jsonify(body), status] *)

Inductive response : Type :=
  | Reply (status : Z) (body : gmap string json)
  (** an exception escaping the handler (Flask's own error page) *)
  | Unhandled (exception : string).

Section Handler.

Context `{E : Externals}.

(** [datetime.now()] *)
Definition now : M datetime :=
  fun st =>
    (Frame (ai_response st) (S (clock_reads st)),
     inr (datetime_now (clock_reads st))).

(** [json.loads(s)] *)
Definition loads (s : string) : M json :=
  match json_loads s with
  | inl msg => raise (JSONDecodeError msg)
  | inr v => ret v
  end.

(** [analysis.get(key, default)]: a dictionary lookup with a fallback when
    the key is absent; any other value has no attribute [get]. *)
Definition get (analysis : json) (key : string) (fallback : json) : M json :=
  match analysis with
  | JDict d =>
      ret (match d !! key with Some v => v | None => fallback end)
  | v =>
      raise (Exception ("'" ++ type_name v ++ "' object has no attribute 'get'"))
  end.

(** Line 65: [data.get('description', '')] *)
Definition description_of (data : gmap string string) : string :=
  match data !! "description" with
  | Some d => d
  | None => EmptyString
  end.

(** Truth value of [data.get('image')]: [None] and the empty string are
    false. *)
Definition truthy_opt (o : option string) : bool :=
  match o with Some s => PyStr.truthy s | None => false end.

(** The keys of the report literal. *)
Definition report_fields : list string :=
  [ "report_id"; "timestamp"; "issue_classification"; "location";
    "ai_analysis"; "recommended_actions"; "safety_warnings";
    "priority_score"; "assigned_department"; "citizen_description";
    "ai_reasoning"; "status"; "created_at"; "ai_model" ].

(** Lines 75-77: the text part of the prompt. *)
Definition prompt_text (description : string) : string :=
  if PyStr.truthy description
  then ANALYSIS_PROMPT ++ nl ++ nl ++ "Citizen's description: " ++ description
  else ANALYSIS_PROMPT.

(** Lines 84-85: the data-URI prefix is dropped with [split(',')[1]]. *)
Definition strip_data_uri (image_data : string) : string :=
  if PyStr.contains "," image_data
  then match PyStr.split "," image_data with
       | _ :: seg :: _ => seg
       | _ => image_data      (* not reached: a comma gives two segments *)
       end
  else image_data.

(** Lines 72-93: the parts handed to the model. *)
Definition gemini_parts (description : string) (image_data : option string)
  : M (list (part image)) :=
  let text := prompt_text description in
  match image_data with
  | Some img_data =>
      if PyStr.truthy img_data then
        image_bytes <- call (b64decode (strip_data_uri img_data)) ;;
        img <- call (Image_open image_bytes) ;;
        ret [PText text; PImage img]
      else ret [PText text]
  | None => ret [PText text]
  end.

(** Lines 110-113: the candidate JSON text cut out of the model's reply. *)
Definition extract_json (ai_response : string) : string :=
  let json_start := PyStr.find "{" ai_response in
  let json_end := PyStr.rfind "}" ai_response + 1 in
  if negb (json_start =? -1) && (json_end >? json_start)
  then PyStr.slice json_start json_end ai_response
  else ai_response.

(** Lines 118-136: the report dictionary, its values evaluated in the order
    of the literal. *)
Definition make_report (analysis : json) (description : string)
  : M (gmap string json) :=
  t_id <- now ;;
  t_stamp <- now ;;
  issue_classification <- get analysis "issue_classification" (JDict ∅) ;;
  ai_analysis <- get analysis "ai_analysis" (JDict ∅) ;;
  recommended_actions <- get analysis "recommended_actions" (JList []) ;;
  safety_warnings <- get analysis "safety_warnings" (JList []) ;;
  priority_score <- get analysis "priority_score" (JInt 50) ;;
  assigned_department <-
    get analysis "assigned_department" (JStr "Municipal Services") ;;
  ai_reasoning <- get analysis "reasoning" (JStr EmptyString) ;;
  t_created <- now ;;
  ret (<["report_id" := JStr ("CIV-" ++ strftime t_id "%Y%m%d%H%M%S")]>
      (<["timestamp" := JStr (isoformat t_stamp)]>
      (<["issue_classification" := issue_classification]>
      (<["location" :=
           JDict (<["description" := JStr (PyStr.prefix 200 description)]>
                 (<["coordinates" := JNull]> ∅))]>
      (<["ai_analysis" := ai_analysis]>
      (<["recommended_actions" := recommended_actions]>
      (<["safety_warnings" := safety_warnings]>
      (<["priority_score" := priority_score]>
      (<["assigned_department" := assigned_department]>
      (<["citizen_description" := JStr description]>
      (<["ai_reasoning" := ai_reasoning]>
      (<["status" := JStr "submitted"]>
      (<["created_at" := JStr (isoformat t_created)]>
      (<["ai_model" := JStr "Gemini 2.0 Flash"]> ∅)))))))))))))).

(** The report in closed form, when [analysis] is a dictionary and the
    clock was read at [t_id], [t_stamp] and [t_created]. *)
Definition report_of (analysis : gmap string json) (description : string)
    (t_id t_stamp t_created : datetime) : gmap string json :=
  <["report_id" := JStr ("CIV-" ++ strftime t_id "%Y%m%d%H%M%S")]>
  (<["timestamp" := JStr (isoformat t_stamp)]>
  (<["issue_classification" :=
       default (JDict ∅) (analysis !! "issue_classification")]>
  (<["location" :=
       JDict (<["description" := JStr (PyStr.prefix 200 description)]>
             (<["coordinates" := JNull]> ∅))]>
  (<["ai_analysis" := default (JDict ∅) (analysis !! "ai_analysis")]>
  (<["recommended_actions" :=
       default (JList []) (analysis !! "recommended_actions")]>
  (<["safety_warnings" := default (JList []) (analysis !! "safety_warnings")]>
  (<["priority_score" := default (JInt 50) (analysis !! "priority_score")]>
  (<["assigned_department" :=
       default (JStr "Municipal Services") (analysis !! "assigned_department")]>
  (<["citizen_description" := JStr description]>
  (<["ai_reasoning" := default (JStr EmptyString) (analysis !! "reasoning")]>
  (<["status" := JStr "submitted"]>
  (<["created_at" := JStr (isoformat t_created)]>
  (<["ai_model" := JStr "Gemini 2.0 Flash"]> ∅))))))))))))).

(** Lines 64-138: the body of the [try] block. [data] is the JSON object of
    the request, whose fields are strings. *)
Definition analyze_body (data : gmap string string) : M response :=
  let description := description_of data in
  let image_data := data !! "image" in
  if negb (PyStr.truthy description) && negb (truthy_opt image_data) then
    ret (Reply 400 {[ "error" := JStr "Please provide description or image" ]})
  else
    parts <- gemini_parts description image_data ;;
    text <- call (generate_content parts generation_config) ;;
    set_ai_response text ;;;
    raw <- get_ai_response ;;
    set_ai_response (extract_json raw) ;;;
    candidate <- get_ai_response ;;
    analysis <- loads candidate ;;
    report <- make_report analysis description ;;
    ret (Reply 200 report).

End Handler.

(** Lines 63-143: the [try] block with its two [except] clauses. The first
    clause reads [ai_response] as the body left it. *)
Definition analyze_issue `{E : Externals} (data : gmap string string) : response :=
  match analyze_body data (Frame None 0) with
  | (_, inr r) => r
  | (st, inl (JSONDecodeError msg)) =>
      match ai_response st with
      | Some v =>
          Reply 500 {[ "error" := JStr ("Failed to parse AI response: " ++ msg);
                       "raw_response" := JStr (PyStr.prefix 500 v) ]}
      | None => Unhandled "UnboundLocalError"
      end
  | (_, inl (Exception msg)) =>
      Reply 500 {[ "error" := JStr ("Error: " ++ msg) ]}
  end.

(** ** A reference environment

    Executable stand-ins for the libraries, on which the handler can be run:
    a reader for JSON text, CPython's lenient base64 decoder, an image opener
    that looks at the file signature, a model whose reply is scripted, and a
    clock that advances one second per reading. Error messages carry no
    positions. *)

Module Reference.

Local Open Scope char_scope.

Definition is_ws (a : ascii) : bool :=
  Ascii.eqb a " " || Ascii.eqb a (ascii_of_nat 9)
  || Ascii.eqb a (ascii_of_nat 10) || Ascii.eqb a (ascii_of_nat 13).

Fixpoint skip_ws (s : string) : string :=
  match s with
  | String a s' => if is_ws a then skip_ws s' else s
  | EmptyString => s
  end.

Definition is_digit (a : ascii) : bool :=
  let n := N_of_ascii a in ((48 <=? n) && (n <=? 57))%N.

Definition digit_value (a : ascii) : Z := Z.of_N (N_of_ascii a) - 48.

(** The longest prefix of digits, and what follows it. *)
Fixpoint span_digits (s : string) : string * string :=
  match s with
  | String a s' =>
      if is_digit a
      then let '(ds, rest) := span_digits s' in (String a ds, rest)
      else (EmptyString, s)
  | EmptyString => (EmptyString, s)
  end.

Fixpoint decimal (acc : Z) (ds : string) : Z :=
  match ds with
  | String a ds' => decimal (10 * acc + digit_value a) ds'
  | EmptyString => acc
  end.

(** The integer part of a number, as written: an optional minus sign, then
    a single zero or a run of digits that does not start with zero. *)
Definition scan_int (s : string) : option (string * string) :=
  let '(sign, s1) := match s with
                     | String "-" s' => (String "-" EmptyString, s')
                     | _ => (EmptyString, s)
                     end in
  match s1 with
  | String "0" rest => Some (sign ++ String "0" EmptyString, rest)%string
  | String a _ =>
      if is_digit a
      then let '(ds, rest) := span_digits s1 in Some (sign ++ ds, rest)%string
      else None
  | EmptyString => None
  end.

(** An optional fraction: a dot and at least one digit. *)
Definition scan_frac (s : string) : string * string :=
  match s with
  | String "." s' =>
      match span_digits s' with
      | (EmptyString, _) => (EmptyString, s)
      | (ds, rest) => (String "." ds, rest)
      end
  | _ => (EmptyString, s)
  end.

(** An optional exponent: e or E, an optional sign, at least one digit. *)
Definition scan_exp (s : string) : string * string :=
  match s with
  | String e s' =>
      if Ascii.eqb e "e" || Ascii.eqb e "E" then
        let '(sign, s'') := match s' with
                            | String "-" t => (String "-" EmptyString, t)
                            | String "+" t => (String "+" EmptyString, t)
                            | _ => (EmptyString, s')
                            end in
        match span_digits s'' with
        | (EmptyString, _) => (EmptyString, s)
        | (ds, rest) => (String e (sign ++ ds), rest)%string
        end
      else (EmptyString, s)
  | EmptyString => (EmptyString, s)
  end.

Definition int_of_literal (lit : string) : Z :=
  match lit with
  | String "-" ds => - decimal 0 ds
  | ds => decimal 0 ds
  end.

Definition scan_number (s : string) : option (json * string) :=
  match scan_int s with
  | None => None
  | Some (int_part, s1) =>
      let '(frac, s2) := scan_frac s1 in
      let '(exp, s3) := scan_exp s2 in
      match frac, exp with
      | EmptyString, EmptyString => Some (JInt (int_of_literal int_part), s3)
      | _, _ => Some (JFloat (int_part ++ frac ++ exp)%string, s3)
      end
  end.

(** If [s] starts with [word], what follows it. *)
Fixpoint strip_prefix (word s : string) : option string :=
  match word, s with
  | EmptyString, _ => Some s
  | String a w', String b s' => if Ascii.eqb a b then strip_prefix w' s' else None
  | _, EmptyString => None
  end.

Definition hex_value (a : ascii) : option N :=
  let n := N_of_ascii a in
  if ((48 <=? n) && (n <=? 57))%N then Some (n - 48)%N
  else if ((65 <=? n) && (n <=? 70))%N then Some (n - 55)%N
  else if ((97 <=? n) && (n <=? 102))%N then Some (n - 87)%N
  else None.

(** The body of a string literal, after the opening quote, up to and
    including the closing quote. Control characters are refused, and so is a
    [\u] escape of a character above 255, which [string] cannot hold. *)
Fixpoint scan_string (s : string) : option (string * string) :=
  match s with
  | EmptyString => None
  | String a s' =>
      if Ascii.eqb a (ascii_of_nat 34) then Some (EmptyString, s')
      else if Ascii.eqb a "\" then
        match s' with
        | String "u" (String h1 (String h2 (String h3 (String h4 s'')))) =>
            match hex_value h1, hex_value h2, hex_value h3, hex_value h4 with
            | Some d1, Some d2, Some d3, Some d4 =>
                let code := (((d1 * 16 + d2) * 16 + d3) * 16 + d4)%N in
                if (code <? 256)%N then
                  match scan_string s'' with
                  | Some (body, rest) => Some (String (ascii_of_N code) body, rest)
                  | None => None
                  end
                else None
            | _, _, _, _ => None
            end
        | String e s'' =>
            let unescaped :=
              if Ascii.eqb e (ascii_of_nat 34) then Some (ascii_of_nat 34)
              else if Ascii.eqb e "\" then Some "\"
              else if Ascii.eqb e "/" then Some "/"
              else if Ascii.eqb e "b" then Some (ascii_of_nat 8)
              else if Ascii.eqb e "f" then Some (ascii_of_nat 12)
              else if Ascii.eqb e "n" then Some (ascii_of_nat 10)
              else if Ascii.eqb e "r" then Some (ascii_of_nat 13)
              else if Ascii.eqb e "t" then Some (ascii_of_nat 9)
              else None in
            match unescaped, scan_string s'' with
            | Some c, Some (body, rest) => Some (String c body, rest)
            | _, _ => None
            end
        | EmptyString => None
        end
      else if (N_of_ascii a <? 32)%N then None
      else match scan_string s' with
           | Some (body, rest) => Some (String a body, rest)
           | None => None
           end
  end.

(** One JSON value at the head of [s], and what follows it. Every step
    consumes a character, so [fuel] above the length of [s] is enough. *)
Fixpoint scan_value (fuel : nat) (s : string) : option (json * string) :=
  match fuel with
  | O => None
  | S fuel' =>
      match s with
      | String "{" s' =>
          match skip_ws s' with
          | String "}" rest => Some (JDict ∅, rest)
          | s'' => scan_members fuel' ∅ s''
          end
      | String "[" s' =>
          match skip_ws s' with
          | String "]" rest => Some (JList [], rest)
          | s'' => scan_items fuel' [] s''
          end
      | String a s' =>
          if Ascii.eqb a (ascii_of_nat 34) then
            match scan_string s' with
            | Some (body, rest) => Some (JStr body, rest)
            | None => None
            end
          else
            match strip_prefix "null" s, strip_prefix "true" s,
                  strip_prefix "false" s with
            | Some rest, _, _ => Some (JNull, rest)
            | _, Some rest, _ => Some (JBool true, rest)
            | _, _, Some rest => Some (JBool false, rest)
            | None, None, None =>
                match strip_prefix "NaN" s, strip_prefix "Infinity" s,
                      strip_prefix "-Infinity" s with
                | Some rest, _, _ => Some (JFloat "NaN", rest)
                | _, Some rest, _ => Some (JFloat "Infinity", rest)
                | _, _, Some rest => Some (JFloat "-Infinity", rest)
                | None, None, None => scan_number s
                end
            end
      | EmptyString => None
      end
  end

(** The members of an object after [{] and blanks: [acc] holds those read
    so far, a repeated key keeping its last value. *)
with scan_members (fuel : nat) (acc : gmap string json) (s : string)
  : option (json * string) :=
  match fuel with
  | O => None
  | S fuel' =>
      match s with
      | String q s1 =>
          if Ascii.eqb q (ascii_of_nat 34) then
            match scan_string s1 with
            | Some (key, s2) =>
                match skip_ws s2 with
                | String ":" s3 =>
                    match scan_value fuel' (skip_ws s3) with
                    | Some (v, s4) =>
                        match skip_ws s4 with
                        | String "}" rest => Some (JDict (<[key := v]> acc), rest)
                        | String "," s5 =>
                            scan_members fuel' (<[key := v]> acc) (skip_ws s5)
                        | _ => None
                        end
                    | None => None
                    end
                | _ => None
                end
            | None => None
            end
          else None
      | EmptyString => None
      end
  end

(** The items of an array after [[] and blanks, [acc] in reverse. *)
with scan_items (fuel : nat) (acc : list json) (s : string)
  : option (json * string) :=
  match fuel with
  | O => None
  | S fuel' =>
      match scan_value fuel' s with
      | Some (v, s1) =>
          match skip_ws s1 with
          | String "]" rest => Some (JList (rev (v :: acc)), rest)
          | String "," s2 => scan_items fuel' (v :: acc) (skip_ws s2)
          | _ => None
          end
      | None => None
      end
  end.

(** [json.loads]: one value, blanks allowed around it, nothing after. *)
Definition read_json (s : string) : string + json :=
  match scan_value (S (String.length s)) (skip_ws s) with
  | Some (v, rest) =>
      match skip_ws rest with
      | EmptyString => inr v
      | _ => inl "Extra data"%string
      end
  | None => inl "Expecting value"%string
  end.

(** [binascii.a2b_base64] without [strict_mode]: characters outside the
    alphabet are skipped, and a completed run of padding ends the input. *)
Definition b64_value (a : ascii) : option N :=
  let n := N_of_ascii a in
  if ((65 <=? n) && (n <=? 90))%N then Some (n - 65)%N
  else if ((97 <=? n) && (n <=? 122))%N then Some (n - 71)%N
  else if ((48 <=? n) && (n <=? 57))%N then Some (n + 4)%N
  else if Ascii.eqb a "+" then Some 62%N
  else if Ascii.eqb a "/" then Some 63%N
  else None.

Definition octet (n : N) : Byte.byte := byte_of_ascii (ascii_of_N n).

Fixpoint a2b_base64 (s : string) (quad_pos leftchar pads : N)
    (out : list Byte.byte) : string + list Byte.byte :=
  match s with
  | EmptyString =>
      if (quad_pos =? 0)%N then inr (rev out)
      else if (quad_pos =? 1)%N then
        inl ("Invalid base64-encoded string: number of data characters ("
             ++ pretty (N.of_nat (length out) / 3 * 4 + 1)%N
             ++ ") cannot be 1 more than a multiple of 4")%string
      else inl "Incorrect padding"%string
  | String a s' =>
      if Ascii.eqb a "=" then
        if (2 <=? quad_pos)%N then
          if (4 <=? quad_pos + (pads + 1))%N then inr (rev out)
          else a2b_base64 s' quad_pos leftchar (pads + 1)%N out
        else a2b_base64 s' quad_pos leftchar pads out
      else
        match b64_value a with
        | None => a2b_base64 s' quad_pos leftchar pads out
        | Some c =>
            if (quad_pos =? 0)%N then a2b_base64 s' 1%N c 0%N out
            else if (quad_pos =? 1)%N then
              a2b_base64 s' 2%N (N.land c 15) 0%N
                (octet (N.lor (N.shiftl leftchar 2) (N.shiftr c 4)) :: out)
            else if (quad_pos =? 2)%N then
              a2b_base64 s' 3%N (N.land c 3) 0%N
                (octet (N.lor (N.shiftl leftchar 4) (N.shiftr c 2)) :: out)
            else
              a2b_base64 s' 0%N 0%N 0%N
                (octet (N.lor (N.shiftl leftchar 6) c) :: out)
        end
  end.

Fixpoint is_ascii (s : string) : bool :=
  match s with
  | String a s' => (N_of_ascii a <? 128)%N && is_ascii s'
  | EmptyString => true
  end.

(** [base64.b64decode(s)] for a [str] argument. *)
Definition decode_base64 (s : string) : string + list Byte.byte :=
  if is_ascii s then a2b_base64 s 0%N 0%N 0%N []
  else inl "string argument should contain only ASCII characters"%string.

(** An image is recognised by the PNG or JPEG signature of its file. *)
Definition open_image (bytes : list Byte.byte) : string + list Byte.byte :=
  match map Byte.to_N bytes with
  | 137 :: 80 :: 78 :: 71 :: 13 :: 10 :: 26 :: 10 :: _ => inr bytes
  | 255 :: 216 :: 255 :: _ => inr bytes
  | _ => inl "cannot identify image file"%string
  end%N.

Record timestamp : Type := Timestamp {
  year : N; month : N; day : N;
  hour : N; minute : N; second : N; microsecond : N
}.

(** [n] written with exactly [width] decimal digits. *)
Fixpoint zero_padded (width : nat) (n : N) : string :=
  match width with
  | O => EmptyString
  | S w => (zero_padded w (n / 10)%N
            ++ String (ascii_of_N (48 + n mod 10)%N) EmptyString)%string
  end.

(** The directives of [strftime] that the handler's format uses. *)
Fixpoint format_time (d : timestamp) (format : string) : string :=
  match format with
  | String "%" (String c rest) =>
      let field :=
        if Ascii.eqb c "Y" then zero_padded 4 (year d)
        else if Ascii.eqb c "m" then zero_padded 2 (month d)
        else if Ascii.eqb c "d" then zero_padded 2 (day d)
        else if Ascii.eqb c "H" then zero_padded 2 (hour d)
        else if Ascii.eqb c "M" then zero_padded 2 (minute d)
        else if Ascii.eqb c "S" then zero_padded 2 (second d)
        else String "%" (String c EmptyString) in
      (field ++ format_time d rest)%string
  | String a rest => String a (format_time d rest)
  | EmptyString => EmptyString
  end.

Definition iso_format (d : timestamp) : string :=
  (zero_padded 4 (year d) ++ "-" ++ zero_padded 2 (month d) ++ "-"
   ++ zero_padded 2 (day d) ++ "T" ++ zero_padded 2 (hour d) ++ ":"
   ++ zero_padded 2 (minute d) ++ ":" ++ zero_padded 2 (second d)
   ++ (if (microsecond d =? 0)%N then EmptyString
       else "." ++ zero_padded 6 (microsecond d)))%string.

(** Noon of 7 February 2026, one second later at each reading. *)
Definition clock (n : nat) : timestamp :=
  Timestamp 2026 2 7 12 0 (N.of_nat n mod 60) 0.

End Reference.

(** The reference environment in which the model answers [reply]. *)
Definition reference_env (reply : string + string) : Externals := {|
  image := list Byte.byte;
  datetime := Reference.timestamp;
  b64decode := Reference.decode_base64;
  Image_open := Reference.open_image;
  generate_content := fun _ _ => reply;
  json_loads := Reference.read_json;
  datetime_now := Reference.clock;
  strftime := Reference.format_time;
  isoformat := Reference.iso_format
|}.

(** ** The other endpoints

    [/api/health], [/api/reports] and [/api/statistics] take no input and
    answer with a fixed value. *)

(** [return jsonify(v)]: the value as the body, with Flask's default
    status. *)
Definition jsonify (v : json) : Z * json := (200, v).

(** Lines 147-154. *)
Definition health_check : Z * json :=
  jsonify (JDict {[ "status" := JStr "healthy";
                    "service" := JStr "Civic Issue Analyzer API";
                    "version" := JStr "1.0.0";
                    "ai_model" := JStr "Gemini 2.0 Flash" ]}).

(** Lines 163-186: the two canned reports. *)
Definition mock_reports : list json :=
  [ JDict {[ "report_id" := JStr "CIV-20260207120000";
             "timestamp" := JStr "2026-02-07T12:00:00";
             "issue_classification" :=
               JDict {[ "type" := JStr "Road Infrastructure";
                        "severity" := JStr "high";
                        "urgency" := JStr "Immediate attention required" ]};
             "priority_score" := JInt 85;
             "status" := JStr "in_progress" ]};
    JDict {[ "report_id" := JStr "CIV-20260207110000";
             "timestamp" := JStr "2026-02-07T11:00:00";
             "issue_classification" :=
               JDict {[ "type" := JStr "Water & Sanitation";
                        "severity" := JStr "critical";
                        "urgency" := JStr "Emergency response" ]};
             "priority_score" := JInt 95;
             "status" := JStr "resolved" ]} ].

(** Lines 158-187. *)
Definition get_reports : Z * json := jsonify (JList mock_reports).

(** Lines 195-214: the dashboard figures. *)
Definition stats : gmap string json :=
  {[ "total_reports" := JInt 156;
     "pending" := JInt 23;
     "in_progress" := JInt 45;
     "resolved" := JInt 88;
     "by_severity" :=
       JDict {[ "critical" := JInt 12; "high" := JInt 34;
                "medium" := JInt 67; "low" := JInt 43 ]};
     "by_category" :=
       JDict {[ "Road Infrastructure" := JInt 56;
                "Water & Sanitation" := JInt 32;
                "Electrical" := JInt 28;
                "Waste Management" := JInt 40 ]};
     "avg_response_time_hours" := JFloat "18.5";
     "resolution_rate" := JFloat "0.564" ]}.

(** Lines 191-215. *)
Definition get_statistics : Z * json := jsonify (JDict stats).

(** Reading aids for the fixed values: an integer field of a dictionary, the
    sum of a dictionary of counts, and the keys of a dictionary. *)
Definition int_field (d : gmap string json) (key : string) : option Z :=
  match d !! key with
  | Some (JInt n) => Some n
  | _ => None
  end.

Definition count_sum (v : json) : option Z :=
  match v with
  | JDict d =>
      map_fold (fun _ x acc =>
                  match x, acc with
                  | JInt n, Some total => Some (n + total)
                  | _, _ => None
                  end) (Some 0) d
  | _ => None
  end.

Definition keys_of (v : json) : list string :=
  match v with
  | JDict d => fst <$> map_to_list d
  | _ => []
  end.

(** Membership in a list of strings, decided by computation. *)
Fixpoint among (key : string) (keys : list string) : bool :=
  match keys with
  | [] => false
  | k :: rest => String.eqb key k || among key rest
  end.

(** The severity levels the prompt asks the model to choose from (line 38). *)
Definition severity_levels : list string := ["critical"; "high"; "medium"; "low"].

(** ** Sample texts *)

(** A reply that wraps its JSON object in prose, and the object's text. *)
Definition wrapped_reply : string :=
  "Sure! {" ++ dq ++ "priority_score" ++ dq ++ ": 77} Thanks.".

Definition wrapped_object : string :=
  "{" ++ dq ++ "priority_score" ++ dq ++ ": 77}".

(** A reply whose braces enclose no JSON. *)
Definition broken_reply : string := "Sure! {oops} Thanks.".

(** A data URI followed by a second comma-separated segment. *)
Definition two_comma_image : string := "data:image/png;base64,QUJD,REVG".

(** Base64 text as RFC 4648 defines the encoding, the sense in which an image
    string is or is not valid base64: groups of four characters of the
    alphabet (A-Z, a-z, 0-9, plus and slash), the last group ending in at
    most two padding characters. *)
Definition in_alphabet (a : ascii) : bool :=
  match Reference.b64_value a with Some _ => true | None => false end.

Fixpoint is_base64 (s : string) : bool :=
  match s with
  | EmptyString => true
  | String a (String b (String c (String d rest))) =>
      in_alphabet a && in_alphabet b
      && match rest with
         | EmptyString =>
             (in_alphabet c && (in_alphabet d || Ascii.eqb d "="))
             || (Ascii.eqb c "=" && Ascii.eqb d "=")
         | _ => in_alphabet c && in_alphabet d && is_base64 rest
         end
  | _ => false
  end.

(** The decoding of an image string fails with message [msg]: the base64
    decoder raises on [text], or the image opener raises on the decoded
    bytes. *)
Definition image_rejected `{E : Externals} (text msg : string) : Prop :=
  b64decode text = inl msg
  \/ exists bytes, b64decode text = inr bytes /\ Image_open bytes = inl msg.

(** A one-pixel PNG file in base64, and the same text behind a data-URI
    prefix with an exclamation mark after its fourth character. *)
Definition pixel_png : string :=
  "iVBORw0KGgoAAAANSUhEUgAAAAEAAAABCAYAAAAfFcSJAAAADUlEQVR42mNkYPhfDwAChwGA60e6kgAAAABJRU5ErkJggg==".

Definition marred_image : string :=
  "data:image/png;base64,iVBO!Rw0KGgoAAAANSUhEUgAAAAEAAAABCAYAAAAfFcSJAAAADUlEQVR42mNkYPhfDwAChwGA60e6kgAAAABJRU5ErkJggg==".

(** A request with a description only, one with an empty image beside it, and
    one whose description has 250 characters. *)
Definition described_request : gmap string string :=
  {[ "description" := "pothole" ]}.

Definition empty_image_request : gmap string string :=
  {[ "description" := "pothole"; "image" := EmptyString ]}.

Definition long_description : string :=
  String.concat EmptyString (replicate 25 "0123456789").

Definition long_request : gmap string string :=
  {[ "description" := long_description ]}.

(** The report the reference environment gives for [wrapped_reply]. *)
Definition wrapped_report (description : string) : gmap string json :=
  @report_of (reference_env (inr wrapped_reply))
    {[ "priority_score" := JInt 77 ]} description
    (Reference.clock 0) (Reference.clock 1) (Reference.clock 2).

(** * Properties *)

(** ** Python string primitives *)

Module PyStrFacts.
Import PyStr.

#[local] Arguments String.append !_ _ / : simpl nomatch.

Lemma len_nonneg s : 0 <= len s.
Proof. unfold len. lia. Qed.

Lemma len_cons a s : len (String a s) = len s + 1.
Proof. unfold len. simpl String.length. lia. Qed.

Lemma len_app s t : len (s ++ t) = len s + len t.
Proof.
  induction s as [|a s IH]; simpl.
  - unfold len. simpl. lia.
  - rewrite !len_cons, IH. lia.
Qed.

Lemma find_range c s : -1 <= find c s < len s.
Proof.
  induction s as [|a s IH]; simpl.
  - unfold len; simpl; lia.
  - rewrite len_cons. destruct (Ascii.eqb a c); [lia|].
    destruct (Z.eqb_spec (find c s) (-1)); lia.
Qed.

Lemma rfind_range c s : -1 <= rfind c s < len s.
Proof.
  induction s as [|a s IH]; simpl.
  - unfold len; simpl; lia.
  - rewrite len_cons. destruct (Z.eqb_spec (rfind c s) (-1)).
    + destruct (Ascii.eqb a c); lia.
    + lia.
Qed.

Lemma find_absent c s : contains c s = false -> find c s = -1.
Proof.
  induction s as [|a s IH]; simpl; [done|].
  destruct (Ascii.eqb a c); simpl; [done|].
  intros H. rewrite (IH H). done.
Qed.

Lemma rfind_absent c s : contains c s = false -> rfind c s = -1.
Proof.
  induction s as [|a s IH]; simpl; [done|].
  destruct (Ascii.eqb a c); simpl; [done|].
  intros H. rewrite (IH H). done.
Qed.

(** The first occurrence: [find] returns the length of what precedes it. *)
Lemma find_first c pre rest :
  contains c pre = false -> find c (pre ++ String c rest) = len pre.
Proof.
  induction pre as [|a pre IH]; simpl.
  - intros _. rewrite Ascii.eqb_refl. done.
  - destruct (Ascii.eqb a c); simpl; [done|].
    intros H. rewrite (IH H), len_cons.
    pose proof (len_nonneg pre).
    destruct (Z.eqb_spec (len pre) (-1)); lia.
Qed.

Lemma rfind_app c pre t :
  rfind c (pre ++ t) =
    if rfind c t =? -1 then rfind c pre else len pre + rfind c t.
Proof.
  induction pre as [|a pre IH]; simpl.
  - destruct (Z.eqb_spec (rfind c t) (-1)) as [->|]; [done|].
    unfold len; simpl; lia.
  - rewrite IH, len_cons. pose proof (len_nonneg pre).
    pose proof (rfind_range c t).
    destruct (Z.eqb_spec (rfind c t) (-1)); [done|].
    destruct (Z.eqb_spec (len pre + rfind c t) (-1)); lia.
Qed.

(** The last occurrence: [rfind] returns the length of what precedes it. *)
Lemma rfind_last c pre post :
  contains c post = false -> rfind c (pre ++ String c post) = len pre.
Proof.
  intros H. rewrite rfind_app. simpl.
  rewrite (rfind_absent _ _ H). simpl. rewrite Ascii.eqb_refl. simpl. lia.
Qed.

Lemma find_split c s :
  find c s <> -1 ->
  exists pre rest,
    s = pre ++ String c rest /\ contains c pre = false /\ find c s = len pre.
Proof.
  induction s as [|a s IH]; simpl; [done|].
  destruct (Ascii.eqb_spec a c) as [->|Hne].
  - intros _. exists EmptyString, s. done.
  - destruct (Z.eqb_spec (find c s) (-1)) as [|Hf]; [done|]. intros _.
    destruct (IH Hf) as (pre & rest & -> & Hpre & Hlen).
    exists (String a pre), rest. simpl. split; [done|].
    rewrite (proj2 (Ascii.eqb_neq a c) Hne), Hpre, len_cons. simpl.
    split; [done|]. rewrite Hlen. done.
Qed.

Lemma rfind_split c s :
  rfind c s <> -1 ->
  exists pre post, s = pre ++ String c post /\ contains c post = false.
Proof.
  induction s as [|a s IH]; simpl; [done|].
  destruct (Z.eqb_spec (rfind c s) (-1)) as [Hr|Hr].
  - destruct (Ascii.eqb_spec a c) as [->|]; [|done]. intros _.
    exists EmptyString, s. split; [done|].
    clear IH. induction s as [|b s IH]; simpl in *; [done|].
    destruct (Z.eqb_spec (rfind c s) (-1)) as [Hs|Hs].
    + destruct (Ascii.eqb b c); [done|]. simpl. auto.
    + pose proof (rfind_range c s). lia.
  - intros _. destruct (IH Hr) as (pre & post & -> & Hpost).
    exists (String a pre), post. done.
Qed.

Lemma drop_app s t : drop (String.length s) (s ++ t) = t.
Proof. induction s; simpl; [by destruct t|done]. Qed.

Lemma take_app s t : take (String.length s) (s ++ t) = s.
Proof. induction s as [|a s IH]; simpl; [by destruct t|by rewrite IH]. Qed.

Lemma clamp_inside s i : 0 <= i <= len s -> clamp s i = i.
Proof.
  intros H. unfold clamp. cbv zeta.
  destruct (Z.ltb_spec i 0); [lia|].
  destruct (Z.ltb_spec i 0); [lia|].
  destruct (Z.ltb_spec (len s) i); lia.
Qed.

(** [s[a:b]] where [a] and [b] delimit the middle of three pieces. *)
Lemma slice_middle x y z :
  slice (len x) (len x + len y) (x ++ y ++ z) = y.
Proof.
  unfold slice. pose proof (len_nonneg x). pose proof (len_nonneg y).
  pose proof (len_nonneg z).
  rewrite !clamp_inside by (rewrite !len_app; lia).
  replace (len x + len y - len x) with (len y) by lia.
  unfold len. rewrite !Nat2Z.id, drop_app, take_app. done.
Qed.

Lemma take_length n s : (String.length (take n s) <= n)%nat.
Proof. revert s; induction n as [|n IH]; intros [|a s]; simpl; try lia.
       specialize (IH s). lia. Qed.

Lemma take_all n s : (String.length s <= n)%nat -> take n s = s.
Proof.
  revert s; induction n as [|n IH]; intros [|a s]; simpl; try done; try lia.
  intros H. rewrite IH; [done|lia].
Qed.

Lemma take_is_prefix n s : exists t, s = take n s ++ t.
Proof.
  revert s; induction n as [|n IH]; intros [|a s]; simpl; eauto.
  destruct (IH s) as [t Ht]. exists t. by rewrite <- Ht.
Qed.

(** [s[:b]] for [b >= 0] is the first [b] characters, or all of [s]. *)
Lemma prefix_take b s : 0 <= b -> prefix b s = take (Z.to_nat b) s.
Proof.
  intros Hb. unfold prefix, slice. pose proof (len_nonneg s).
  rewrite (clamp_inside s 0) by lia. simpl drop. rewrite Z.sub_0_r.
  unfold clamp. cbv zeta.
  destruct (Z.ltb_spec b 0); [lia|]. destruct (Z.ltb_spec b 0); [lia|].
  destruct (Z.ltb_spec (len s) b); [|done].
  unfold len. rewrite Nat2Z.id.
  rewrite !take_all; [done|unfold len in *; lia|lia].
Qed.

End PyStrFacts.

(** ** The handler, stage by stage *)

Section HandlerFacts.

Context `{E : Externals}.

Implicit Types (data : gmap string string) (st : frame).

(** Building the prompt parts touches neither [ai_response] nor the clock,
    and raises ordinary exceptions only. *)
Lemma gemini_parts_frame description image_data st :
  (gemini_parts description image_data st).1 = st.
Proof.
  unfold gemini_parts, bind, call, ret, raise.
  destruct image_data as [img|]; [|done].
  destruct (PyStr.truthy img); [|done].
  destruct (b64decode _); [done|]. destruct (Image_open _); done.
Qed.

Lemma gemini_parts_exn description image_data st e :
  (gemini_parts description image_data st).2 = inl e ->
  exists msg, e = Exception msg.
Proof.
  unfold gemini_parts, bind, call, ret, raise.
  destruct image_data as [img|]; [|done].
  destruct (PyStr.truthy img); [|done].
  destruct (b64decode _); simpl; [intros [= <-]; eauto|].
  destruct (Image_open _); simpl; [intros [= <-]; eauto|done].
Qed.

Lemma make_report_dict analysis description st :
  make_report (JDict analysis) description st =
    (Frame (ai_response st) (3 + clock_reads st),
     inr (report_of analysis description
            (datetime_now (clock_reads st))
            (datetime_now (1 + clock_reads st))
            (datetime_now (2 + clock_reads st)))).
Proof.
  unfold make_report, report_of, bind, now, get, ret. simpl.
  repeat match goal with |- context [analysis !! ?k] =>
    destruct (analysis !! k) end; reflexivity.
Qed.

Lemma make_report_not_dict v description st :
  is_dict v = false ->
  make_report v description st =
    (Frame (ai_response st) (2 + clock_reads st),
     inl (Exception ("'" ++ type_name v ++ "' object has no attribute 'get'"))).
Proof. destruct v; try done; reflexivity. Qed.


(** *** Outcomes of the handler, by the stage that decides them *)

Ltac run_handler :=
  unfold analyze_issue, analyze_body, bind, call, loads, set_ai_response,
    get_ai_response, ret, raise; simpl.

Lemma analyze_issue_rejected data :
  PyStr.truthy (description_of data) = false ->
  truthy_opt (data !! "image") = false ->
  analyze_issue data =
    Reply 400 {[ "error" := JStr "Please provide description or image" ]}.
Proof. intros Hd Hi. run_handler. rewrite Hd, Hi. done. Qed.

Lemma analyze_issue_parts_error data msg :
  PyStr.truthy (description_of data) || truthy_opt (data !! "image") = true ->
  (gemini_parts (description_of data) (data !! "image") (Frame None 0)).2
    = inl (Exception msg) ->
  analyze_issue data = Reply 500 {[ "error" := JStr ("Error: " ++ msg) ]}.
Proof.
  intros Hv Hp. run_handler.
  destruct (PyStr.truthy _), (truthy_opt _); try done; simpl;
    destruct (gemini_parts _ _ _) as [st' r]; simpl in Hp; subst r; done.
Qed.

Lemma analyze_issue_model_error data parts msg :
  PyStr.truthy (description_of data) || truthy_opt (data !! "image") = true ->
  (gemini_parts (description_of data) (data !! "image") (Frame None 0)).2
    = inr parts ->
  generate_content parts generation_config = inl msg ->
  analyze_issue data = Reply 500 {[ "error" := JStr ("Error: " ++ msg) ]}.
Proof.
  intros Hv Hp Hg. run_handler.
  destruct (PyStr.truthy _), (truthy_opt _); try done; simpl;
    destruct (gemini_parts _ _ _) as [st' r]; simpl in Hp; subst r;
    rewrite Hg; done.
Qed.

Lemma analyze_issue_parse_error data parts raw msg :
  PyStr.truthy (description_of data) || truthy_opt (data !! "image") = true ->
  (gemini_parts (description_of data) (data !! "image") (Frame None 0)).2
    = inr parts ->
  generate_content parts generation_config = inr raw ->
  json_loads (extract_json raw) = inl msg ->
  analyze_issue data =
    Reply 500
      {[ "error" := JStr ("Failed to parse AI response: " ++ msg);
         "raw_response" := JStr (PyStr.prefix 500 (extract_json raw)) ]}.
Proof.
  intros Hv Hp Hg Hj. run_handler.
  destruct (PyStr.truthy _), (truthy_opt _); try done; simpl;
    destruct (gemini_parts _ _ _) as [st' r]; simpl in Hp; subst r;
    rewrite Hg; simpl; rewrite Hj; done.
Qed.

Lemma analyze_issue_not_dict data parts raw v :
  PyStr.truthy (description_of data) || truthy_opt (data !! "image") = true ->
  (gemini_parts (description_of data) (data !! "image") (Frame None 0)).2
    = inr parts ->
  generate_content parts generation_config = inr raw ->
  json_loads (extract_json raw) = inr v ->
  is_dict v = false ->
  analyze_issue data =
    Reply 500
      {[ "error" :=
           JStr ("Error: '" ++ type_name v ++ "' object has no attribute 'get'") ]}.
Proof.
  intros Hv Hp Hg Hj Hd. run_handler.
  destruct (PyStr.truthy _), (truthy_opt _); try done; simpl;
    destruct (gemini_parts _ _ _) as [st' r]; simpl in Hp; subst r;
    rewrite Hg; simpl; rewrite Hj; simpl;
    rewrite (make_report_not_dict _ _ _ Hd); done.
Qed.

Lemma analyze_issue_report data parts raw analysis :
  PyStr.truthy (description_of data) || truthy_opt (data !! "image") = true ->
  (gemini_parts (description_of data) (data !! "image") (Frame None 0)).2
    = inr parts ->
  generate_content parts generation_config = inr raw ->
  json_loads (extract_json raw) = inr (JDict analysis) ->
  analyze_issue data =
    Reply 200 (report_of analysis (description_of data)
                 (datetime_now 0) (datetime_now 1) (datetime_now 2)).
Proof.
  intros Hv Hp Hg Hj.
  pose proof (gemini_parts_frame (description_of data) (data !! "image")
                (Frame None 0)) as Hf.
  run_handler.
  destruct (PyStr.truthy _), (truthy_opt _); try done; simpl;
    destruct (gemini_parts _ _ _) as [st' r]; simpl in Hp, Hf; subst r st';
    rewrite Hg; simpl; rewrite Hj; reflexivity.
Qed.

(** Every run of the handler ends in one of four replies. *)
Lemma analyze_issue_cases data :
  let valid :=
    PyStr.truthy (description_of data) || truthy_opt (data !! "image") in
  (valid = false /\
   analyze_issue data =
     Reply 400 {[ "error" := JStr "Please provide description or image" ]})
  \/ (valid = true /\ exists msg,
        analyze_issue data = Reply 500 {[ "error" := JStr ("Error: " ++ msg) ]})
  \/ (valid = true /\ exists msg raw,
        analyze_issue data =
          Reply 500
            {[ "error" := JStr ("Failed to parse AI response: " ++ msg);
               "raw_response" := JStr (PyStr.prefix 500 (extract_json raw)) ]})
  \/ (valid = true /\ exists analysis,
        analyze_issue data =
          Reply 200 (report_of analysis (description_of data)
                       (datetime_now 0) (datetime_now 1) (datetime_now 2))).
Proof.
  intros valid. subst valid.
  destruct (PyStr.truthy (description_of data) || truthy_opt (data !! "image"))
    eqn:Hv.
  2: { left. apply orb_false_iff in Hv as [Hd Hi].
       by rewrite (analyze_issue_rejected _ Hd Hi). }
  right.
  destruct (gemini_parts (description_of data) (data !! "image") (Frame None 0))
    as [st' [e|parts]] eqn:Hp.
  { destruct (gemini_parts_exn (description_of data) (data !! "image")
                (Frame None 0) e) as [msg ->]; [by rewrite Hp|].
    left. split; [done|]. exists msg.
    apply analyze_issue_parts_error; [done|by rewrite Hp]. }
  assert ((gemini_parts (description_of data) (data !! "image")
             (Frame None 0)).2 = inr parts) as Hp' by (by rewrite Hp).
  destruct (generate_content parts generation_config) as [msg|raw] eqn:Hg.
  { left. split; [done|]. exists msg.
    by apply (analyze_issue_model_error _ parts). }
  destruct (json_loads (extract_json raw)) as [msg|v] eqn:Hj.
  { right; left. split; [done|]. exists msg, raw.
    by apply (analyze_issue_parse_error _ parts). }
  destruct (is_dict v) eqn:Hd.
  - destruct v; try done. right; right. split; [done|]. eexists.
    by apply (analyze_issue_report _ parts raw).
  - left. split; [done|]. eexists.
    by apply (analyze_issue_not_dict _ parts raw).
Qed.

(** A reply with status 200 carries a report built from a dictionary. *)
Lemma analyze_issue_200 data report :
  analyze_issue data = Reply 200 report ->
  exists analysis,
    report = report_of analysis (description_of data)
               (datetime_now 0) (datetime_now 1) (datetime_now 2).
Proof.
  intros H.
  destruct (analyze_issue_cases data)
    as [[_ H']|[[_ (? & H')]|[[_ (? & ? & H')]|[_ (m & H')]]]];
    rewrite H' in H; try done.
  injection H as <-. eauto.
Qed.

(** Only a request without input is answered with status 400. *)
Lemma analyze_issue_400 data body :
  analyze_issue data = Reply 400 body ->
  PyStr.truthy (description_of data) || truthy_opt (data !! "image") = false.
Proof.
  intros H.
  destruct (analyze_issue_cases data)
    as [[Hv H']|[[_ (? & H')]|[[_ (? & ? & H')]|[_ (m & H')]]]];
    rewrite H' in H; done.
Qed.

(** No exception escapes the handler. *)
Lemma analyze_issue_handled data exc : analyze_issue data <> Unhandled exc.
Proof.
  intros H.
  destruct (analyze_issue_cases data)
    as [[Hv H']|[[_ (? & H')]|[[_ (? & ? & H')]|[_ (m & H')]]]];
    rewrite H' in H; done.
Qed.

End HandlerFacts.

(** ** The response extractor *)

Section Extractor.
Import PyStr PyStrFacts.

#[local] Arguments String.append !_ _ / : simpl nomatch.

Lemma append_assoc_cons (s : string) a t u :
  (s ++ String a t) ++ u = s ++ String a (t ++ u).
Proof. induction s as [|b s IH]; simpl; [done|by rewrite IH]. Qed.

(** When the test of line 112 succeeds, the text has an opening brace with a
    closing brace somewhere after it. *)
Lemma extract_json_guard text :
  negb (find "{" text =? -1) && (rfind "}" text + 1 >? find "{" text) = true ->
  exists pre mid post, text = pre ++ String "{" (mid ++ String "}" post).
Proof.
  intros [Hs He]%andb_true_iff.
  apply negb_true_iff, Z.eqb_neq in Hs.
  apply Z.gtb_lt in He.
  destruct (find_split _ _ Hs) as (pre & rest & -> & _ & Hlen).
  rewrite Hlen in He. rewrite rfind_app in He.
  pose proof (rfind_range "}" pre).
  destruct (Z.eqb_spec (rfind "}" (String "{" rest)) (-1)) as [|Hr]; [lia|].
  simpl in Hr.
  destruct (Z.eqb_spec (rfind "}" rest) (-1)) as [|Hr']; [done|].
  destruct (rfind_split _ _ Hr') as (mid & post & -> & _).
  eauto.
Qed.

(** C1. If the reply has a [{] and a [}] and the first [{] precedes the last
    [}], the candidate is the text from that first [{] to that last [}],
    both included; in every other case the candidate is the reply itself.
    The first case is the reply read as [pre { mid } post] with no [{] in
    [pre] and no [}] in [post]; the other case is a reply in which no [{] is
    followed by a [}]. *)
Theorem extract_json_first_to_last :
  (forall pre mid post : string,
      contains "{" pre = false ->
      contains "}" post = false ->
      extract_json (pre ++ String "{" (mid ++ String "}" post))
      = String "{" (mid ++ String "}" EmptyString))
  /\ (forall text : string,
         (forall pre mid post,
             text <> pre ++ String "{" (mid ++ String "}" post)) ->
         extract_json text = text).
Proof.
  split.
  - intros pre mid post Hpre Hpost. unfold extract_json.
    rewrite (find_first _ _ _ Hpre).
    replace (rfind "}" (pre ++ String "{" (mid ++ String "}" post)))
      with (len pre + (len mid + 1)).
    2: { rewrite <- (append_assoc_cons pre "{" mid (String "}" post)).
         rewrite (rfind_last _ _ _ Hpost), len_app, len_cons. done. }
    pose proof (len_nonneg pre). pose proof (len_nonneg mid).
    destruct (Z.eqb_spec (len pre) (-1)); [lia|].
    destruct (Z.gtb_spec (len pre + (len mid + 1) + 1) (len pre)); [|lia].
    simpl.
    pose proof (slice_middle pre (String "{" (mid ++ String "}" EmptyString)) post)
      as Hs.
    simpl in Hs. rewrite append_assoc_cons in Hs. simpl in Hs.
    rewrite len_cons, len_app, len_cons in Hs.
    replace (len pre + (len mid + (len EmptyString + 1) + 1))
      with (len pre + (len mid + 1) + 1) in Hs by (unfold len; simpl; lia).
    exact Hs.
  - intros text Hno. unfold extract_json.
    destruct (negb (find "{" text =? -1) && (rfind "}" text + 1 >? find "{" text))
      eqn:Hg; [|done].
    destruct (extract_json_guard _ Hg) as (pre & mid & post & ->).
    by destruct (Hno pre mid post).
Qed.

Lemma extract_json_first_to_last_witness :
  extract_json ("Sure! " ++ String "{" ("a" ++ String "}" " Thanks."))
  = String "{" ("a" ++ String "}" EmptyString)
  /\ extract_json "no braces here" = "no braces here".
Proof.
  split.
  - apply (proj1 extract_json_first_to_last); reflexivity.
  - apply (proj2 extract_json_first_to_last).
    intros pre mid post H.
    assert (contains "{" "no braces here" = true) as Hc; [|discriminate Hc].
    rewrite H. clear H.
    induction pre as [|a pre IH]; simpl.
    + done.
    + rewrite IH. apply orb_true_r.
Defined.

End Extractor.

(** ** The report normalizer *)

Section Normalizer.

Context `{E : Externals}.

(** C2. For every parsed dictionary, the empty one included, the report has
    every key of the report literal, and each key absent from the AI payload
    takes its default: empty mappings for [issue_classification] and
    [ai_analysis], empty lists for [recommended_actions] and
    [safety_warnings], 50 for [priority_score], "Municipal Services" for
    [assigned_department], and the empty string for [ai_reasoning]. *)
Theorem make_report_complete (analysis : gmap string json)
    (description : string) (st : frame) :
  exists report : gmap string json,
    (make_report (JDict analysis) description st).2 = inr report
    /\ Forall (fun k => is_Some (report !! k)) report_fields
    /\ (exists loc : gmap string json,
          report !! "location" = Some (JDict loc)
          /\ is_Some (loc !! "description") /\ is_Some (loc !! "coordinates"))
    /\ (analysis !! "issue_classification" = None ->
        report !! "issue_classification" = Some (JDict ∅))
    /\ (analysis !! "ai_analysis" = None ->
        report !! "ai_analysis" = Some (JDict ∅))
    /\ (analysis !! "recommended_actions" = None ->
        report !! "recommended_actions" = Some (JList []))
    /\ (analysis !! "safety_warnings" = None ->
        report !! "safety_warnings" = Some (JList []))
    /\ (analysis !! "priority_score" = None ->
        report !! "priority_score" = Some (JInt 50))
    /\ (analysis !! "assigned_department" = None ->
        report !! "assigned_department" = Some (JStr "Municipal Services"))
    /\ (analysis !! "reasoning" = None ->
        report !! "ai_reasoning" = Some (JStr EmptyString)).
Proof.
  rewrite make_report_dict. eexists. split; [reflexivity|].
  split; [repeat constructor; by eexists|].
  split; [eexists; split; [reflexivity|split; by eexists]|].
  repeat split; intros H; unfold report_of; rewrite H; reflexivity.
Qed.

(** A key present in the AI payload is used as it is. *)
Lemma make_report_passes_through (analysis : gmap string json) description
    t_id t_stamp t_created :
  let report := report_of analysis description t_id t_stamp t_created in
  (forall v, analysis !! "issue_classification" = Some v ->
             report !! "issue_classification" = Some v)
  /\ (forall v, analysis !! "ai_analysis" = Some v ->
                report !! "ai_analysis" = Some v)
  /\ (forall v, analysis !! "recommended_actions" = Some v ->
                report !! "recommended_actions" = Some v)
  /\ (forall v, analysis !! "safety_warnings" = Some v ->
                report !! "safety_warnings" = Some v)
  /\ (forall v, analysis !! "priority_score" = Some v ->
                report !! "priority_score" = Some v)
  /\ (forall v, analysis !! "assigned_department" = Some v ->
                report !! "assigned_department" = Some v)
  /\ (forall v, analysis !! "reasoning" = Some v ->
                report !! "ai_reasoning" = Some v).
Proof.
  repeat split; intros v H; unfold report_of; rewrite H; reflexivity.
Qed.

End Normalizer.

Lemma make_report_complete_witness :
  exists report : gmap string json,
    (@make_report (reference_env (inr EmptyString)) (JDict ∅) "pothole"
       (Frame None 0)).2 = inr report
    /\ report !! "priority_score" = Some (JInt 50)
    /\ report !! "assigned_department" = Some (JStr "Municipal Services")
    /\ report !! "report_id" = Some (JStr "CIV-20260207120000").
Proof.
  destruct (@make_report_complete (reference_env (inr EmptyString)) ∅ "pothole"
              (Frame None 0))
    as (report & Hrun & _ & _ & _ & _ & _ & _ & Hscore & Hdept & _).
  exists report. split; [exact Hrun|].
  split; [by apply Hscore|]. split; [by apply Hdept|].
  rewrite make_report_dict in Hrun. injection Hrun as <-. reflexivity.
Defined.

(** ** The request validator *)

Section Validator.

Context `{E : Externals}.

(** C4. A request whose description and image are both absent or empty is
    answered with status 400 and an error body; a request in which either
    one is present and non-empty is not rejected by the validator (its
    reply is never a 400). *)
Theorem validation_needs_one_input (data : gmap string string) :
  ((data !! "description" = None \/ data !! "description" = Some EmptyString) ->
   (data !! "image" = None \/ data !! "image" = Some EmptyString) ->
   analyze_issue data =
     Reply 400 {[ "error" := JStr "Please provide description or image" ]})
  /\ ((exists s, s <> EmptyString /\
                (data !! "description" = Some s \/ data !! "image" = Some s)) ->
      forall body, analyze_issue data <> Reply 400 body).
Proof.
  split.
  - intros Hd Hi. apply analyze_issue_rejected.
    + unfold description_of. by destruct Hd as [-> | ->].
    + by destruct Hi as [-> | ->].
  - intros (s & Hs & Hin) body Hreply.
    apply analyze_issue_400, orb_false_iff in Hreply as [Hd Hi].
    unfold description_of in Hd.
    destruct Hin as [H|H]; rewrite H in *; by destruct s.
Qed.

End Validator.

Lemma validation_needs_one_input_witness :
  @analyze_issue (reference_env (inr wrapped_reply)) {[ "description" := EmptyString ]}
  = Reply 400 {[ "error" := JStr "Please provide description or image" ]}
  /\ (forall body,
        @analyze_issue (reference_env (inr wrapped_reply))
          {[ "description" := "pothole" ]} <> Reply 400 body).
Proof.
  split.
  - apply (proj1 (@validation_needs_one_input (reference_env (inr wrapped_reply))
                    {[ "description" := EmptyString ]})).
    + right. reflexivity.
    + left. reflexivity.
  - apply (proj2 (@validation_needs_one_input (reference_env (inr wrapped_reply))
                    {[ "description" := "pothole" ]})).
    exists "pothole". split; [discriminate|]. left. reflexivity.
Defined.

(** ** The prompt builder and the image decoder *)

Section PromptBuilder.

Context `{E : Externals}.

(** C7. A request with a non-empty description and no image yields exactly
    one part: the text made of the instruction template followed by the
    description under the "Citizen's description:" marker. When an image is
    supplied and decodes, the decoded image follows the text as the second
    part. *)
Theorem prompt_parts (data : gmap string string) (st : frame) :
  (forall d,
      data !! "description" = Some d -> d <> EmptyString ->
      data !! "image" = None ->
      gemini_parts (description_of data) (data !! "image") st =
        (st, inr [PText (ANALYSIS_PROMPT ++ nl ++ nl
                         ++ "Citizen's description: " ++ d)]))
  /\ (forall s bytes img,
         data !! "image" = Some s -> s <> EmptyString ->
         b64decode (strip_data_uri s) = inr bytes ->
         Image_open bytes = inr img ->
         gemini_parts (description_of data) (data !! "image") st =
           (st, inr [PText (prompt_text (description_of data)); PImage img])).
Proof.
  split.
  - intros d Hd Hne Hi. unfold description_of. rewrite Hd, Hi.
    unfold gemini_parts, prompt_text, ret. by destruct d.
  - intros s bytes img Hi Hne Hb Ho. rewrite Hi.
    unfold gemini_parts, bind, call, ret.
    destruct s; [done|]. simpl PyStr.truthy. cbv iota.
    rewrite Hb, Ho. done.
Qed.

End PromptBuilder.

Lemma prompt_parts_witness :
  @gemini_parts (reference_env (inr wrapped_reply))
    (description_of {[ "description" := "pothole" ]})
    (({[ "description" := "pothole" ]} : gmap string string) !! "image")
    (Frame None 0)
  = (Frame None 0,
     inr [PText (ANALYSIS_PROMPT ++ nl ++ nl
                 ++ "Citizen's description: " ++ "pothole")]).
Proof.
  apply (proj1 (@prompt_parts (reference_env (inr wrapped_reply))
                  {[ "description" := "pothole" ]} (Frame None 0)) "pothole");
    [reflexivity | discriminate | reflexivity].
Defined.

(** ** The handler end to end *)

Section EndToEnd.

Context `{E : Externals}.

Lemma take_length_min n s :
  String.length (PyStr.take n s) = Nat.min n (String.length s).
Proof.
  revert s; induction n as [|n IH]; intros [|a s]; simpl; try done.
  by rewrite IH.
Qed.

(** C8. In every successful report, [citizen_description] is the description
    the request carries, whole and unmodified, and [location.description] is
    its first 200 characters, or all of it when it is shorter: a prefix of
    the description of length min(200, its length). A request without a
    description gets the empty string in both places. *)
Theorem report_echoes_description (data : gmap string string)
    (report : gmap string json) :
  analyze_issue data = Reply 200 report ->
  (forall d : string,
      data !! "description" = Some d ->
      report !! "citizen_description" = Some (JStr d)
      /\ exists (loc : gmap string json) (shown : string),
           report !! "location" = Some (JDict loc)
           /\ loc !! "description" = Some (JStr shown)
           /\ shown = PyStr.take 200 d
           /\ String.length shown = Nat.min 200 (String.length d)
           /\ exists rest, d = shown ++ rest)
  /\ (data !! "description" = None ->
      report !! "citizen_description" = Some (JStr EmptyString)
      /\ exists loc : gmap string json,
           report !! "location" = Some (JDict loc)
           /\ loc !! "description" = Some (JStr EmptyString)).
Proof.
  intros [analysis ->]%analyze_issue_200.
  split.
  - intros d Hd. unfold description_of. rewrite Hd.
    split; [reflexivity|].
    eexists _, (PyStr.take 200 d).
    split; [reflexivity|].
    split; [by rewrite PyStrFacts.prefix_take|].
    split; [done|].
    split; [apply take_length_min | apply PyStrFacts.take_is_prefix].
  - intros Hd. unfold description_of. rewrite Hd.
    split; [reflexivity|].
    eexists. split; reflexivity.
Qed.

(** C9. For the reply [Sure! {"priority_score": 77} Thanks.] the candidate
    is the text [{"priority_score": 77}]; once that text is read as the
    object it denotes, the report has [priority_score] 77 and every other
    AI-derived field at its default. *)
Theorem wrapped_reply_report (data : gmap string string)
    (parts : list (part image)) :
  PyStr.truthy (description_of data) || truthy_opt (data !! "image") = true ->
  (gemini_parts (description_of data) (data !! "image") (Frame None 0)).2
    = inr parts ->
  generate_content parts generation_config = inr wrapped_reply ->
  json_loads wrapped_object = inr (JDict {[ "priority_score" := JInt 77 ]}) ->
  extract_json wrapped_reply = wrapped_object
  /\ exists report : gmap string json,
       analyze_issue data = Reply 200 report
       /\ report !! "priority_score" = Some (JInt 77)
       /\ report !! "assigned_department" = Some (JStr "Municipal Services")
       /\ report !! "recommended_actions" = Some (JList [])
       /\ report !! "safety_warnings" = Some (JList [])
       /\ report !! "issue_classification" = Some (JDict ∅)
       /\ report !! "ai_analysis" = Some (JDict ∅)
       /\ report !! "ai_reasoning" = Some (JStr EmptyString).
Proof.
  intros Hv Hp Hg Hj.
  assert (extract_json wrapped_reply = wrapped_object) as Hx by reflexivity.
  split; [exact Hx|].
  eexists. split.
  - apply (analyze_issue_report data parts wrapped_reply); [done..|].
    rewrite Hx. exact Hj.
  - repeat split; reflexivity.
Qed.

(** C10. When the candidate parses to a JSON value that is not an object, the
    reply is the generic 500: its body holds the error string alone, with no
    [raw_response]. *)
Theorem non_object_reply_is_generic_error (data : gmap string string)
    (parts : list (part image)) (raw : string) (v : json) :
  PyStr.truthy (description_of data) || truthy_opt (data !! "image") = true ->
  (gemini_parts (description_of data) (data !! "image") (Frame None 0)).2
    = inr parts ->
  generate_content parts generation_config = inr raw ->
  json_loads (extract_json raw) = inr v ->
  is_dict v = false ->
  exists body : gmap string json,
    analyze_issue data = Reply 500 body
    /\ body =
         {[ "error" :=
              JStr ("Error: '" ++ type_name v
                    ++ "' object has no attribute 'get'") ]}
    /\ body !! "raw_response" = None.
Proof.
  intros Hv Hp Hg Hj Hd. eexists. split.
  - by apply (analyze_issue_not_dict data parts raw v).
  - split; reflexivity.
Qed.

(** C3. What the parse-failure reply carries under [raw_response] is the
    start of the candidate, which for [Sure! {oops} Thanks.] is [{oops}] and
    not the start of the reply. *)
Theorem raw_response_is_the_candidate (data : gmap string string)
    (parts : list (part image)) (msg : string) :
  PyStr.truthy (description_of data) || truthy_opt (data !! "image") = true ->
  (gemini_parts (description_of data) (data !! "image") (Frame None 0)).2
    = inr parts ->
  generate_content parts generation_config = inr broken_reply ->
  json_loads "{oops}" = inl msg ->
  analyze_issue data =
    Reply 500 {[ "error" := JStr ("Failed to parse AI response: " ++ msg);
                 "raw_response" := JStr "{oops}" ]}
  /\ PyStr.prefix 500 broken_reply = "Sure! {oops} Thanks.".
Proof.
  intros Hv Hp Hg Hj. split; [|reflexivity].
  rewrite (analyze_issue_parse_error data parts broken_reply msg Hv Hp Hg);
    [reflexivity|exact Hj].
Qed.

(** The general form: on a parse failure the reply has status 500, the
    parser's message, and at most 500 characters of the candidate. *)
Lemma parse_failure_reply (data : gmap string string)
    (parts : list (part image)) (raw msg : string) :
  PyStr.truthy (description_of data) || truthy_opt (data !! "image") = true ->
  (gemini_parts (description_of data) (data !! "image") (Frame None 0)).2
    = inr parts ->
  generate_content parts generation_config = inr raw ->
  json_loads (extract_json raw) = inl msg ->
  exists shown,
    analyze_issue data =
      Reply 500 {[ "error" := JStr ("Failed to parse AI response: " ++ msg);
                   "raw_response" := JStr shown ]}
    /\ shown = PyStr.take 500 (extract_json raw)
    /\ (String.length shown <= 500)%nat.
Proof.
  intros Hv Hp Hg Hj. eexists. split; [|split; [reflexivity|]].
  - rewrite (analyze_issue_parse_error data parts raw msg Hv Hp Hg Hj).
    by rewrite PyStrFacts.prefix_take.
  - apply PyStrFacts.take_length.
Qed.

(** When the reply has no brace pair to cut at, the candidate is the reply,
    and the diagnostic is the start of the reply itself. *)
Lemma parse_failure_reply_unextracted (data : gmap string string)
    (parts : list (part image)) (raw msg : string) :
  PyStr.truthy (description_of data) || truthy_opt (data !! "image") = true ->
  (gemini_parts (description_of data) (data !! "image") (Frame None 0)).2
    = inr parts ->
  generate_content parts generation_config = inr raw ->
  (forall pre mid post, raw <> pre ++ String "{" (mid ++ String "}" post)) ->
  json_loads raw = inl msg ->
  analyze_issue data =
    Reply 500 {[ "error" := JStr ("Failed to parse AI response: " ++ msg);
                 "raw_response" := JStr (PyStr.take 500 raw) ]}.
Proof.
  intros Hv Hp Hg Hno Hj.
  pose proof (extract_json_guard raw) as Hguard.
  assert (extract_json raw = raw) as Hx.
  { unfold extract_json.
    destruct (negb (PyStr.find "{" raw =? -1)
              && (PyStr.rfind "}" raw + 1 >? PyStr.find "{" raw)) eqn:Hc;
      [|done].
    destruct (Hguard eq_refl) as (pre & mid & post & ->).
    by destruct (Hno pre mid post). }
  rewrite (analyze_issue_parse_error data parts raw msg Hv Hp Hg);
    rewrite Hx; [|done].
  by rewrite PyStrFacts.prefix_take.
Qed.

End EndToEnd.


Lemma report_echoes_description_witness :
  wrapped_report long_description !! "citizen_description"
  = Some (JStr long_description)
  /\ exists (loc : gmap string json) (shown : string),
       wrapped_report long_description !! "location" = Some (JDict loc)
       /\ loc !! "description" = Some (JStr shown)
       /\ shown = PyStr.take 200 long_description
       /\ String.length shown = Nat.min 200 (String.length long_description)
       /\ exists rest, long_description = shown ++ rest.
Proof.
  assert (@analyze_issue (reference_env (inr wrapped_reply)) long_request
          = Reply 200 (wrapped_report long_description)) as Hrun
    by (vm_compute; reflexivity).
  apply (proj1 (@report_echoes_description (reference_env (inr wrapped_reply))
                  long_request _ Hrun)).
  vm_compute; reflexivity.
Defined.

Lemma wrapped_reply_report_witness :
  extract_json wrapped_reply = wrapped_object
  /\ exists report : gmap string json,
       @analyze_issue (reference_env (inr wrapped_reply))
         {[ "description" := "pothole" ]} = Reply 200 report
       /\ report !! "priority_score" = Some (JInt 77)
       /\ report !! "assigned_department" = Some (JStr "Municipal Services")
       /\ report !! "recommended_actions" = Some (JList [])
       /\ report !! "safety_warnings" = Some (JList [])
       /\ report !! "issue_classification" = Some (JDict ∅)
       /\ report !! "ai_analysis" = Some (JDict ∅)
       /\ report !! "ai_reasoning" = Some (JStr EmptyString).
Proof.
  apply (@wrapped_reply_report (reference_env (inr wrapped_reply))
           {[ "description" := "pothole" ]} [PText (prompt_text "pothole")]).
  - vm_compute; reflexivity.
  - vm_compute; reflexivity.
  - reflexivity.
  - vm_compute; reflexivity.
Defined.

Lemma non_object_reply_is_generic_error_witness :
  exists body : gmap string json,
    @analyze_issue (reference_env (inr "[1, 2]"))
      {[ "description" := "pothole" ]} = Reply 500 body
    /\ body =
         {[ "error" :=
              JStr ("Error: '" ++ type_name (JList [JInt 1; JInt 2])
                    ++ "' object has no attribute 'get'") ]}
    /\ body !! "raw_response" = None.
Proof.
  apply (@non_object_reply_is_generic_error
           (reference_env (inr "[1, 2]"))
           {[ "description" := "pothole" ]}
           [PText (prompt_text "pothole")] "[1, 2]").
  - vm_compute; reflexivity.
  - vm_compute; reflexivity.
  - reflexivity.
  - vm_compute; reflexivity.
  - reflexivity.
Defined.

Lemma raw_response_is_the_candidate_witness :
  @analyze_issue (reference_env (inr broken_reply)) {[ "description" := "pothole" ]}
  = Reply 500
      {[ "error" := JStr ("Failed to parse AI response: " ++ "Expecting value");
         "raw_response" := JStr "{oops}" ]}
  /\ PyStr.prefix 500 broken_reply = "Sure! {oops} Thanks.".
Proof.
  apply (@raw_response_is_the_candidate (reference_env (inr broken_reply))
           {[ "description" := "pothole" ]}
           [PText (prompt_text "pothole")] "Expecting value").
  - vm_compute; reflexivity.
  - vm_compute; reflexivity.
  - reflexivity.
  - vm_compute; reflexivity.
Defined.

(** ** The data-URI prefix *)

Section DataUri.
Import PyStr PyStrFacts.

#[local] Arguments String.append !_ _ / : simpl nomatch.

Lemma contains_app_cons c pre rest : contains c (pre ++ String c rest) = true.
Proof.
  induction pre as [|a pre IH]; simpl.
  - by rewrite Ascii.eqb_refl.
  - rewrite IH. apply orb_true_r.
Qed.

Lemma split_absent c s : contains c s = false -> split c s = [s].
Proof.
  induction s as [|a s IH]; simpl; [done|].
  destruct (Ascii.eqb a c); simpl; [done|]. intros H. by rewrite (IH H).
Qed.

Lemma split_first c pre rest :
  contains c pre = false ->
  split c (pre ++ String c rest) = pre :: split c rest.
Proof.
  induction pre as [|a pre IH]; simpl.
  - by rewrite Ascii.eqb_refl.
  - destruct (Ascii.eqb a c); simpl; [done|]. intros H. by rewrite (IH H).
Qed.

(** A string with a comma splits into at least two segments, so the index
    [1] of line 85 is always in range. *)
Lemma split_two c s :
  contains c s = true -> exists a b rest, split c s = a :: b :: rest.
Proof.
  induction s as [|x s IH]; simpl; [done|].
  destruct (Ascii.eqb x c); simpl.
  - intros _. destruct s as [|y s]; simpl; [by eauto|].
    destruct (Ascii.eqb y c); [by eauto|].
    destruct (split c s); by eauto.
  - intros H. destruct (IH H) as (a & b & rest & ->). by eauto.
Qed.

(** Without a comma the string is decoded as it is. *)
Lemma strip_data_uri_plain s :
  contains "," s = false -> strip_data_uri s = s.
Proof. intros H. unfold strip_data_uri. by rewrite H. Qed.

(** With a single comma, what follows it is decoded. *)
Lemma strip_data_uri_one_comma pre payload :
  contains "," pre = false -> contains "," payload = false ->
  strip_data_uri (pre ++ String "," payload) = payload.
Proof.
  intros Hpre Hpay. unfold strip_data_uri.
  rewrite contains_app_cons, (split_first _ _ _ Hpre), (split_absent _ _ Hpay).
  done.
Qed.

(** With more commas, only what lies between the first two is decoded. *)
Lemma strip_data_uri_more_commas pre segment tail :
  contains "," pre = false -> contains "," segment = false ->
  strip_data_uri (pre ++ String "," (segment ++ String "," tail)) = segment.
Proof.
  intros Hpre Hseg. unfold strip_data_uri.
  rewrite contains_app_cons, (split_first _ _ _ Hpre),
    (split_first _ _ _ Hseg).
  done.
Qed.

(** C5. For [data:image/png;base64,QUJD,REVG], whose first comma ends the
    scheme prefix, what reaches the decoder is [QUJD] and not the whole
    remainder [QUJD,REVG]; the two decode to different bytes. *)
Theorem second_comma_cuts_payload :
  two_comma_image = "data:image/png;base64" ++ String "," "QUJD,REVG"
  /\ contains "," "data:image/png;base64" = false
  /\ strip_data_uri two_comma_image = "QUJD"
  /\ Reference.decode_base64 "QUJD" = inr [Byte.x41; Byte.x42; Byte.x43]
  /\ Reference.decode_base64 "QUJD,REVG"
     = inr [Byte.x41; Byte.x42; Byte.x43; Byte.x44; Byte.x45; Byte.x46].
Proof. repeat split; vm_compute; reflexivity. Qed.

End DataUri.

(** ** The image decoder *)

Section ImageDecoder.

Context `{E : Externals}.

(** A failure of the decoder or of the image opener on the text [text] that
    line 88 decodes ends the request with the generic error reply. *)
Lemma image_rejected_reply (data : gmap string string) (s msg : string) :
  data !! "image" = Some s ->
  s <> EmptyString ->
  image_rejected (strip_data_uri s) msg ->
  analyze_issue data = Reply 500 {[ "error" := JStr ("Error: " ++ msg) ]}.
Proof.
  intros Hi Hne Hfail.
  apply analyze_issue_parts_error.
  - rewrite Hi. destruct s; [done|]. apply orb_true_r.
  - rewrite Hi. unfold gemini_parts, bind, call, ret, raise.
    destruct s; [done|]. simpl PyStr.truthy. cbv iota.
    destruct Hfail as [Hb | (bytes & Hb & Ho)].
    + by rewrite Hb.
    + by rewrite Hb, Ho.
Qed.

(** C6, as amended. When the base64 decoder raises on the text left after
    the prefix is stripped, or the image opener raises on the decoded bytes,
    the request fails: the reply is the 500 error carrying the library's
    message, and no report is produced. The text decoded is the image string
    itself when it has no comma, and what follows the comma when it has
    one. Whether a text is rejected is the decoder's decision. *)
Theorem image_failure_fails_request (data : gmap string string) (s msg : string) :
  data !! "image" = Some s ->
  s <> EmptyString ->
  (image_rejected (strip_data_uri s) msg ->
   analyze_issue data = Reply 500 {[ "error" := JStr ("Error: " ++ msg) ]})
  /\ (PyStr.contains "," s = false ->
      image_rejected s msg ->
      analyze_issue data = Reply 500 {[ "error" := JStr ("Error: " ++ msg) ]})
  /\ (forall pre payload,
         s = pre ++ String "," payload ->
         PyStr.contains "," pre = false ->
         PyStr.contains "," payload = false ->
         image_rejected payload msg ->
         analyze_issue data = Reply 500 {[ "error" := JStr ("Error: " ++ msg) ]}).
Proof.
  intros Hi Hne. split; [|split].
  - by apply image_rejected_reply.
  - intros Hc Hfail. apply (image_rejected_reply data s); [done..|].
    by rewrite (strip_data_uri_plain s Hc).
  - intros pre payload -> Hpre Hpay Hfail.
    apply (image_rejected_reply data (pre ++ String "," payload)); [done..|].
    by rewrite (strip_data_uri_one_comma pre payload Hpre Hpay).
Qed.

End ImageDecoder.

Lemma image_failure_fails_request_witness :
  @analyze_issue (reference_env (inr wrapped_reply))
    {[ "image" := "data:image/png;base64,QUJDR" ]}
  = Reply 500
      {[ "error" :=
           JStr ("Error: " ++ "Invalid base64-encoded string: number of data characters (5) cannot be 1 more than a multiple of 4") ]}
  /\ @analyze_issue (reference_env (inr wrapped_reply))
       {[ "image" := "data:image/png;base64,QUJD" ]}
     = Reply 500 {[ "error" := JStr ("Error: " ++ "cannot identify image file") ]}.
Proof.
  split.
  - destruct (@image_failure_fails_request (reference_env (inr wrapped_reply))
                ({[ "image" := "data:image/png;base64,QUJDR" ]}
                   : gmap string string)
                "data:image/png;base64,QUJDR"
                "Invalid base64-encoded string: number of data characters (5) cannot be 1 more than a multiple of 4")
      as (_ & _ & Hprefixed); [vm_compute; reflexivity | discriminate |].
    apply (Hprefixed "data:image/png;base64" "QUJDR");
      [reflexivity | reflexivity | reflexivity |].
    left. vm_compute; reflexivity.
  - destruct (@image_failure_fails_request (reference_env (inr wrapped_reply))
                ({[ "image" := "data:image/png;base64,QUJD" ]}
                   : gmap string string)
                "data:image/png;base64,QUJD" "cannot identify image file")
      as (Hstripped & _ & _); [vm_compute; reflexivity | discriminate |].
    apply Hstripped.
    right. exists [Byte.x41; Byte.x42; Byte.x43].
    split; vm_compute; reflexivity.
Defined.

(** C6, as first stated, fails: [marred_image] is not valid base64 after its
    prefix is stripped, yet the decoder skips the foreign character and
    returns the bytes of [pixel_png], a well-formed PNG file, and the request
    is answered with a report. *)
Lemma invalid_base64_image_is_accepted :
  is_base64 pixel_png = true
  /\ is_base64 (strip_data_uri marred_image) = false
  /\ Reference.decode_base64 (strip_data_uri marred_image)
     = Reference.decode_base64 pixel_png
  /\ (exists bytes, Reference.decode_base64 (strip_data_uri marred_image)
                    = inr bytes /\ length bytes = 70%nat)
  /\ @analyze_issue (reference_env (inr wrapped_reply))
       {[ "image" := marred_image ]}
     = Reply 200 (wrapped_report EmptyString).
Proof.
  split; [vm_compute; reflexivity|].
  split; [vm_compute; reflexivity|].
  split; [vm_compute; reflexivity|].
  split; [|vm_compute; reflexivity].
  destruct (Reference.decode_base64 (strip_data_uri marred_image))
    as [msg|bytes] eqn:Hd.
  - vm_compute in Hd. discriminate Hd.
  - exists bytes. split; [reflexivity|].
    vm_compute in Hd. injection Hd as <-. reflexivity.
Qed.

(** ** More on the response extractor *)

Section ExtractorMore.
Import PyStr PyStrFacts.

#[local] Arguments String.append !_ _ / : simpl nomatch.

(** When the test of line 112 succeeds, the text splits at its first [{] and
    its last [}]. *)
Lemma extract_json_guard_split text :
  negb (find "{" text =? -1) && (rfind "}" text + 1 >? find "{" text) = true ->
  exists pre mid post,
    text = pre ++ String "{" (mid ++ String "}" post)
    /\ contains "{" pre = false /\ contains "}" post = false.
Proof.
  intros [Hs He]%andb_true_iff.
  apply negb_true_iff, Z.eqb_neq in Hs.
  apply Z.gtb_lt in He.
  destruct (find_split _ _ Hs) as (pre & rest & -> & Hpre & Hlen).
  rewrite Hlen in He. rewrite rfind_app in He.
  pose proof (rfind_range "}" pre).
  destruct (Z.eqb_spec (rfind "}" (String "{" rest)) (-1)) as [|Hr]; [lia|].
  simpl in Hr.
  destruct (Z.eqb_spec (rfind "}" rest) (-1)) as [|Hr']; [done|].
  destruct (rfind_split _ _ Hr') as (mid & post & -> & Hpost).
  eauto 6.
Qed.

(** The cut itself: from the first [{] to the last [}]. *)
Lemma extract_json_cut pre mid post :
  contains "{" pre = false ->
  contains "}" post = false ->
  extract_json (pre ++ String "{" (mid ++ String "}" post))
  = String "{" (mid ++ String "}" EmptyString).
Proof.
  intros Hpre Hpost. unfold extract_json.
  rewrite (find_first _ _ _ Hpre).
  replace (rfind "}" (pre ++ String "{" (mid ++ String "}" post)))
    with (len pre + (len mid + 1)).
  2: { rewrite <- (append_assoc_cons pre "{" mid (String "}" post)).
       rewrite (rfind_last _ _ _ Hpost), len_app, len_cons. done. }
  pose proof (len_nonneg pre). pose proof (len_nonneg mid).
  destruct (Z.eqb_spec (len pre) (-1)); [lia|].
  destruct (Z.gtb_spec (len pre + (len mid + 1) + 1) (len pre)); [|lia].
  simpl.
  pose proof (slice_middle pre (String "{" (mid ++ String "}" EmptyString)) post)
    as Hs.
  simpl in Hs. rewrite append_assoc_cons in Hs. simpl in Hs.
  rewrite len_cons, len_app, len_cons in Hs.
  replace (len pre + (len mid + (len EmptyString + 1) + 1))
    with (len pre + (len mid + 1) + 1) in Hs by (unfold len; simpl; lia).
  exact Hs.
Qed.

Lemma append_empty_r (s : string) : s ++ EmptyString = s.
Proof. induction s as [|a s IH]; simpl; [done|by rewrite IH]. Qed.

(** Either nothing is cut, or the text splits at its first [{] and last [}]
    and the candidate is the piece between them, braces included. *)
Lemma extract_json_cases text :
  extract_json text = text
  \/ exists pre mid post,
       text = pre ++ String "{" (mid ++ String "}" post)
       /\ extract_json text = String "{" (mid ++ String "}" EmptyString).
Proof.
  destruct (negb (find "{" text =? -1) && (rfind "}" text + 1 >? find "{" text))
    eqn:Hg.
  - right. destruct (extract_json_guard_split _ Hg)
      as (pre & mid & post & -> & Hpre & Hpost).
    exists pre, mid, post. split; [done|]. by apply extract_json_cut.
  - left. unfold extract_json. by rewrite Hg.
Qed.

(** X1. Extracting twice changes nothing more: the candidate of a candidate
    is that candidate. *)
Theorem extract_json_idempotent (text : string) :
  extract_json (extract_json text) = extract_json text.
Proof.
  destruct (extract_json_cases text) as [H|(pre & mid & post & _ & ->)];
    [by rewrite !H|].
  pose proof (extract_json_cut EmptyString mid EmptyString eq_refl eq_refl) as H.
  simpl in H. exact H.
Qed.

(** X2. The candidate is a contiguous piece of the reply: no character is
    added or changed, and the candidate is never longer than the reply. *)
Theorem extract_json_is_substring (text : string) :
  (exists pre post, text = pre ++ extract_json text ++ post)
  /\ (String.length (extract_json text) <= String.length text)%nat.
Proof.
  assert (exists pre post, text = pre ++ extract_json text ++ post) as Hsub.
  { destruct (extract_json_cases text)
      as [->|(pre & mid & post & Htext & ->)].
    - exists EmptyString, EmptyString. simpl. by rewrite append_empty_r.
    - exists pre, post. rewrite Htext. simpl.
      by rewrite append_assoc_cons. }
  split; [exact Hsub|].
  destruct Hsub as (pre & post & Htext).
  pose proof (len_app pre (extract_json text ++ post)) as H1.
  pose proof (len_app (extract_json text) post) as H2.
  rewrite <- Htext in H1. pose proof (len_nonneg pre). pose proof (len_nonneg post).
  unfold len in *. lia.
Qed.

(** A reply that is already one brace-delimited text is its own candidate,
    whatever braces it has inside. *)
Lemma extract_json_keeps_bare_object (mid : string) :
  extract_json (String "{" (mid ++ String "}" EmptyString))
  = String "{" (mid ++ String "}" EmptyString).
Proof.
  pose proof (extract_json_cut EmptyString mid EmptyString eq_refl eq_refl) as H.
  simpl in H. exact H.
Qed.

End ExtractorMore.

(** ** More on the handler *)

Section HandlerMore.

Context `{E : Externals}.

Implicit Types (data : gmap string string).

(** The run of the handler, by the first stage that ends it. *)
Lemma analyze_issue_stages data :
  let valid :=
    PyStr.truthy (description_of data) || truthy_opt (data !! "image") in
  let built :=
    (gemini_parts (description_of data) (data !! "image") (Frame None 0)).2 in
  (valid = false /\
   analyze_issue data =
     Reply 400 {[ "error" := JStr "Please provide description or image" ]})
  \/ (valid = true /\ exists msg,
        built = inl (Exception msg)
        /\ analyze_issue data = Reply 500 {[ "error" := JStr ("Error: " ++ msg) ]})
  \/ (valid = true /\ exists parts msg,
        built = inr parts
        /\ generate_content parts generation_config = inl msg
        /\ analyze_issue data = Reply 500 {[ "error" := JStr ("Error: " ++ msg) ]})
  \/ (valid = true /\ exists parts raw msg,
        built = inr parts
        /\ generate_content parts generation_config = inr raw
        /\ json_loads (extract_json raw) = inl msg
        /\ analyze_issue data =
             Reply 500
               {[ "error" := JStr ("Failed to parse AI response: " ++ msg);
                  "raw_response" := JStr (PyStr.prefix 500 (extract_json raw)) ]})
  \/ (valid = true /\ exists parts raw v,
        built = inr parts
        /\ generate_content parts generation_config = inr raw
        /\ json_loads (extract_json raw) = inr v
        /\ is_dict v = false
        /\ analyze_issue data =
             Reply 500
               {[ "error" :=
                    JStr ("Error: '" ++ type_name v
                          ++ "' object has no attribute 'get'") ]})
  \/ (valid = true /\ exists parts raw analysis,
        built = inr parts
        /\ generate_content parts generation_config = inr raw
        /\ json_loads (extract_json raw) = inr (JDict analysis)
        /\ analyze_issue data =
             Reply 200 (report_of analysis (description_of data)
                          (datetime_now 0) (datetime_now 1) (datetime_now 2))).
Proof.
  intros valid built. subst valid built.
  destruct (PyStr.truthy (description_of data) || truthy_opt (data !! "image"))
    eqn:Hv.
  2: { left. apply orb_false_iff in Hv as [Hd Hi].
       by rewrite (analyze_issue_rejected _ Hd Hi). }
  right.
  destruct (gemini_parts (description_of data) (data !! "image") (Frame None 0))
    as [st' [e|parts]] eqn:Hp.
  { destruct (gemini_parts_exn (description_of data) (data !! "image")
                (Frame None 0) e) as [msg ->]; [by rewrite Hp|].
    left. split; [done|]. exists msg. split; [done|].
    apply analyze_issue_parts_error; [done|by rewrite Hp]. }
  assert ((gemini_parts (description_of data) (data !! "image")
             (Frame None 0)).2 = inr parts) as Hp' by (by rewrite Hp).
  right.
  destruct (generate_content parts generation_config) as [msg|raw] eqn:Hg.
  { left. split; [done|]. exists parts, msg. repeat split; try done.
    by apply (analyze_issue_model_error _ parts). }
  right.
  destruct (json_loads (extract_json raw)) as [msg|v] eqn:Hj.
  { left. split; [done|]. exists parts, raw, msg. repeat split; try done.
    by apply (analyze_issue_parse_error _ parts). }
  right.
  destruct (is_dict v) eqn:Hd.
  - destruct v; try done. right. split; [done|].
    eexists parts, raw, _. repeat split; try done.
    by apply (analyze_issue_report _ parts raw).
  - left. split; [done|]. exists parts, raw, v. repeat split; try done.
    by apply (analyze_issue_not_dict _ parts raw).
Qed.

(** X3. Every request gets a JSON reply with status 200, 400 or 500; no
    exception escapes the handler, and every reply other than a 200 carries an
    [error] string. *)
Theorem reply_shape data :
  exists (status : Z) (body : gmap string json),
    analyze_issue data = Reply status body
    /\ (status = 200 \/ status = 400 \/ status = 500)
    /\ (status <> 200 -> exists msg, body !! "error" = Some (JStr msg)).
Proof.
  destruct (analyze_issue_cases data)
    as [[_ ->]|[[_ (msg & ->)]|[[_ (msg & raw & ->)]|[_ (m & ->)]]]];
    eexists _, _; (split; [reflexivity|]); (split; [auto|]);
    intros ?; try done; by eexists.
Qed.

(** X4. When the call to the model fails, the reply is a 500 whose body is
    the error string built from the failure's message, and nothing else. *)
Theorem model_failure_is_reported data (parts : list (part image)) (msg : string) :
  PyStr.truthy (description_of data) || truthy_opt (data !! "image") = true ->
  (gemini_parts (description_of data) (data !! "image") (Frame None 0)).2
    = inr parts ->
  generate_content parts generation_config = inl msg ->
  analyze_issue data = Reply 500 {[ "error" := JStr ("Error: " ++ msg) ]}.
Proof. intros Hv Hp Hg. by apply (analyze_issue_model_error data parts). Qed.

(** X5. A report is only ever returned when the model answered and the
    candidate cut from its answer parsed to a dictionary; the report is then
    the one built from that dictionary, the request's description and three
    successive readings of the clock. *)
Theorem report_requires_parsed_object data (report : gmap string json) :
  analyze_issue data = Reply 200 report ->
  exists (parts : list (part image)) (raw : string) (analysis : gmap string json),
    (gemini_parts (description_of data) (data !! "image") (Frame None 0)).2
      = inr parts
    /\ generate_content parts generation_config = inr raw
    /\ json_loads (extract_json raw) = inr (JDict analysis)
    /\ report = report_of analysis (description_of data)
                  (datetime_now 0) (datetime_now 1) (datetime_now 2).
Proof.
  intros H.
  destruct (analyze_issue_stages data)
    as [[_ H']|[[_ (? & _ & H')]|[[_ (? & ? & _ & _ & H')]
       |[[_ (? & ? & ? & _ & _ & _ & H')]|[[_ (? & ? & ? & _ & _ & _ & _ & H')]
       |[_ (parts & raw & analysis & Hp & Hg & Hj & H')]]]]]];
    rewrite H' in H; try done.
  injection H as <-. eauto 8.
Qed.

(** X6. A reply carries [raw_response] only on a parse failure: the status is
    then 500, the error string starts with "Failed to parse AI response: ",
    and the diagnostic is the first 500 characters of the candidate cut from
    the model's answer (all of it when it is shorter). *)
Theorem raw_response_only_on_parse_failure data (status : Z)
    (body : gmap string json) (v : json) :
  analyze_issue data = Reply status body ->
  body !! "raw_response" = Some v ->
  status = 500
  /\ exists (parts : list (part image)) (raw msg : string),
       (gemini_parts (description_of data) (data !! "image") (Frame None 0)).2
         = inr parts
       /\ generate_content parts generation_config = inr raw
       /\ json_loads (extract_json raw) = inl msg
       /\ body !! "error" = Some (JStr ("Failed to parse AI response: " ++ msg))
       /\ v = JStr (PyStr.take 500 (extract_json raw))
       /\ (String.length (PyStr.take 500 (extract_json raw)) <= 500)%nat.
Proof.
  intros H Hraw.
  destruct (analyze_issue_stages data)
    as [[_ H']|[[_ (? & _ & H')]|[[_ (? & ? & _ & _ & H')]
       |[[_ (parts & raw & msg & Hp & Hg & Hj & H')]
       |[[_ (? & ? & ? & _ & _ & _ & _ & H')]
       |[_ (? & ? & ? & _ & _ & _ & H')]]]]]];
    rewrite H' in H; injection H as <- <-; try done.
  split; [done|]. exists parts, raw, msg.
  rewrite PyStrFacts.prefix_take in Hraw by done.
  repeat split; try done.
  - by injection Hraw as <-.
  - apply PyStrFacts.take_length.
Qed.

End HandlerMore.

(** ** More on the report and the request *)

Section ReportMore.

Context `{E : Externals}.

Implicit Types (data : gmap string string).

Lemma take_exact n s :
  String.length (PyStr.take n s) = Nat.min n (String.length s).
Proof.
  revert s; induction n as [|n IH]; intros [|a s]; simpl; try done.
  by rewrite IH.
Qed.

(** X7. A successful report has the fourteen keys of the report literal and
    no other, whatever keys the AI payload had; its [status] is "submitted",
    its [ai_model] is "Gemini 2.0 Flash", and its location has no
    coordinates. *)
Theorem report_has_exactly_the_schema data (report : gmap string json) :
  analyze_issue data = Reply 200 report ->
  (forall key, is_Some (report !! key) <-> key ∈ report_fields)
  /\ report !! "status" = Some (JStr "submitted")
  /\ report !! "ai_model" = Some (JStr "Gemini 2.0 Flash")
  /\ exists loc : gmap string json,
       report !! "location" = Some (JDict loc)
       /\ loc !! "coordinates" = Some JNull
       /\ (forall key, is_Some (loc !! key)
                       <-> key = "description" \/ key = "coordinates").
Proof.
  intros [analysis ->]%analyze_issue_200.
  split; [|split; [reflexivity|split; [reflexivity|]]].
  - intros key. rewrite <- elem_of_dom. unfold report_of, report_fields.
    rewrite !dom_insert_L, dom_empty_L. set_solver.
  - eexists. split; [reflexivity|]. split; [reflexivity|].
    intros key. rewrite <- elem_of_dom.
    rewrite !dom_insert_L, dom_empty_L. set_solver.
Qed.

(** X8. A key present in the AI payload is copied into the report as it is,
    whatever its value: a null, a score outside 0-100 or a value of another
    type is not replaced by the default. *)
Theorem payload_values_pass_unchecked (analysis : gmap string json)
    (description : string) (st : frame) :
  exists report : gmap string json,
    (make_report (JDict analysis) description st).2 = inr report
    /\ (forall v, analysis !! "issue_classification" = Some v ->
                  report !! "issue_classification" = Some v)
    /\ (forall v, analysis !! "ai_analysis" = Some v ->
                  report !! "ai_analysis" = Some v)
    /\ (forall v, analysis !! "recommended_actions" = Some v ->
                  report !! "recommended_actions" = Some v)
    /\ (forall v, analysis !! "safety_warnings" = Some v ->
                  report !! "safety_warnings" = Some v)
    /\ (forall v, analysis !! "priority_score" = Some v ->
                  report !! "priority_score" = Some v)
    /\ (forall v, analysis !! "assigned_department" = Some v ->
                  report !! "assigned_department" = Some v)
    /\ (forall v, analysis !! "reasoning" = Some v ->
                  report !! "ai_reasoning" = Some v).
Proof.
  rewrite make_report_dict. eexists. split; [reflexivity|].
  apply make_report_passes_through.
Qed.

(** X9. An image given as the empty string counts as no image: the reply is
    the one the same request gets without the [image] field. *)
Theorem empty_image_is_no_image data :
  data !! "image" = Some EmptyString ->
  analyze_issue data = analyze_issue (delete "image" data).
Proof.
  intros Hi. unfold analyze_issue, analyze_body.
  assert (description_of (delete "image" data) = description_of data) as ->.
  { unfold description_of. by rewrite lookup_delete_ne. }
  rewrite lookup_delete_eq, Hi. reflexivity.
Qed.

(** X10. In a successful report, [location.description] is the description
    itself when it has at most 200 characters, and exactly its first 200
    characters otherwise. *)
Theorem location_description_is_cut_at_200 data (report : gmap string json) :
  analyze_issue data = Reply 200 report ->
  exists (loc : gmap string json) (shown : string),
    report !! "location" = Some (JDict loc)
    /\ loc !! "description" = Some (JStr shown)
    /\ String.length shown = Nat.min 200 (String.length (description_of data))
    /\ ((String.length (description_of data) <= 200)%nat ->
        shown = description_of data).
Proof.
  intros [analysis ->]%analyze_issue_200.
  eexists _, (PyStr.take 200 (description_of data)).
  split; [reflexivity|].
  split; [by rewrite PyStrFacts.prefix_take|].
  split; [apply take_exact|apply PyStrFacts.take_all].
Qed.

(** X11. The model name that [/api/health] announces is the one stamped into
    every successful report. *)
Theorem health_names_the_report_model data (report : gmap string json) :
  analyze_issue data = Reply 200 report ->
  exists body : gmap string json,
    health_check = (200, JDict body)
    /\ body !! "status" = Some (JStr "healthy")
    /\ body !! "ai_model" = report !! "ai_model".
Proof.
  intros [analysis ->]%analyze_issue_200.
  eexists. split; [reflexivity|]. split; reflexivity.
Qed.

End ReportMore.

(** ** More on the data-URI prefix *)

Section DataUriMore.
Import PyStr PyStrFacts.

#[local] Arguments String.append !_ _ / : simpl nomatch.

(** No segment of a split holds the separator. *)
Lemma split_segments_clean c s :
  Forall (fun seg => contains c seg = false) (split c s).
Proof.
  induction s as [|a s IH]; simpl; [by repeat constructor|].
  destruct (Ascii.eqb a c) eqn:Hac.
  - by constructor.
  - destruct (split c s) as [|seg rest].
    + repeat constructor. simpl. by rewrite Hac.
    + inversion IH as [|? ? Hseg Hrest]; subst. constructor; [|done].
      simpl. by rewrite Hac, Hseg.
Qed.

(** X12. What is handed to the base64 decoder never holds a comma. *)
Theorem decoder_input_has_no_comma (image_data : string) :
  contains "," (strip_data_uri image_data) = false.
Proof.
  unfold strip_data_uri.
  destruct (contains "," image_data) eqn:Hc; [|done].
  pose proof (split_segments_clean "," image_data) as Hall.
  destruct (split_two _ _ Hc) as (a & b & rest & Hs). rewrite Hs in *.
  inversion Hall as [|? ? _ Hrest]; subst.
  by inversion Hrest.
Qed.

(** X13. What the decoder receives, by the number of commas: the string itself
    when it has none; everything after the comma when it has one; and only
    what lies between the first two when it has more. *)
Theorem decoder_input_by_commas :
  (forall s, contains "," s = false -> strip_data_uri s = s)
  /\ (forall pre payload,
         contains "," pre = false -> contains "," payload = false ->
         strip_data_uri (pre ++ String "," payload) = payload)
  /\ (forall pre segment tail,
         contains "," pre = false -> contains "," segment = false ->
         strip_data_uri (pre ++ String "," (segment ++ String "," tail))
         = segment).
Proof.
  split; [exact strip_data_uri_plain|].
  split; [exact strip_data_uri_one_comma|exact strip_data_uri_more_commas].
Qed.

End DataUriMore.

(** ** The fixed endpoints *)

(** X14. The dashboard figures agree with each other: pending, in progress
    and resolved add up to the total number of reports, and so do the counts
    by severity and the counts by category. *)
Theorem statistics_add_up :
  exists total pending in_progress resolved : Z,
    get_statistics = (200, JDict stats)
    /\ int_field stats "total_reports" = Some total
    /\ int_field stats "pending" = Some pending
    /\ int_field stats "in_progress" = Some in_progress
    /\ int_field stats "resolved" = Some resolved
    /\ pending + in_progress + resolved = total
    /\ (stats !! "by_severity") ≫= count_sum = Some total
    /\ (stats !! "by_category") ≫= count_sum = Some total.
Proof.
  exists 156, 23, 45, 88. repeat split; vm_compute; reflexivity.
Qed.

Lemma among_elem_of key keys : among key keys = true -> key ∈ keys.
Proof.
  induction keys as [|k rest IH]; simpl; [done|].
  intros [Hk|Hr]%orb_true_iff.
  - apply String.eqb_eq in Hk as ->. by left.
  - right. auto.
Qed.

Lemma all_among_Forall keys allowed :
  forallb (fun key => among key allowed) keys = true ->
  Forall (fun key => key ∈ allowed) keys.
Proof.
  induction keys as [|k rest IH]; simpl; [by constructor|].
  intros [Hk Hr]%andb_true_iff. constructor; [by apply among_elem_of|auto].
Qed.

(** X15. Each canned report of [/api/reports] is a cut-down report of
    [/api/analyze]: its keys are keys of the report literal, its priority
    score is an integer between 0 and 100, and its severity is one of the four
    levels the prompt allows. *)
Theorem mock_reports_fit_the_report_schema :
  get_reports = (200, JList mock_reports)
  /\ Forall
       (fun r =>
          Forall (fun key => key ∈ report_fields) (keys_of r)
          /\ exists d : gmap string json,
               r = JDict d
               /\ (exists score, int_field d "priority_score" = Some score
                                 /\ 0 <= score <= 100)
               /\ exists (c : gmap string json) (severity : string),
                    d !! "issue_classification" = Some (JDict c)
                    /\ c !! "severity" = Some (JStr severity)
                    /\ severity ∈ severity_levels)
       mock_reports.
Proof.
  split; [reflexivity|].
  unfold mock_reports.
  apply Forall_cons. split; [|apply Forall_cons; split; [|by apply Forall_nil]].
  - split; [apply all_among_Forall; vm_compute; reflexivity|].
    eexists. split; [reflexivity|]. split.
    + exists 85. split; [vm_compute; reflexivity|lia].
    + exists {[ "type" := JStr "Road Infrastructure";
                "severity" := JStr "high";
                "urgency" := JStr "Immediate attention required" ]}, "high".
      split; [vm_compute; reflexivity|].
      split; [vm_compute; reflexivity|].
      apply among_elem_of. vm_compute; reflexivity.
  - split; [apply all_among_Forall; vm_compute; reflexivity|].
    eexists. split; [reflexivity|]. split.
    + exists 95. split; [vm_compute; reflexivity|lia].
    + exists {[ "type" := JStr "Water & Sanitation";
                "severity" := JStr "critical";
                "urgency" := JStr "Emergency response" ]}, "critical".
      split; [vm_compute; reflexivity|].
      split; [vm_compute; reflexivity|].
      apply among_elem_of. vm_compute; reflexivity.
Qed.

(** X16. Splitting at commas loses nothing but the commas: the segments
    joined by commas give the string back. *)
Theorem split_join_round_trip (s : string) :
  String.concat "," (PyStr.split "," s) = s.
Proof.
  induction s as [|a s IH]; [reflexivity|].
  simpl PyStr.split. destruct (Ascii.eqb_spec a ",") as [->|Hne].
  - change (String.concat "," (EmptyString :: PyStr.split "," s))
      with (match PyStr.split "," s with
            | [] => EmptyString
            | _ :: _ => String "," (String.concat "," (PyStr.split "," s))
            end).
    destruct (PyStr.split "," s) eqn:Hs; [by destruct s; simpl in Hs;
      repeat case_match|].
    by rewrite IH.
  - destruct (PyStr.split "," s) as [|seg rest] eqn:Hs.
    + destruct s; simpl in Hs; repeat case_match; done.
    + rewrite <- IH. destruct rest; reflexivity.
Qed.

(** ** The extra properties on the reference environment *)

Lemma wrapped_run :
  @analyze_issue (reference_env (inr wrapped_reply)) described_request
  = Reply 200 (wrapped_report (description_of described_request)).
Proof. vm_compute; reflexivity. Qed.

Lemma long_run :
  @analyze_issue (reference_env (inr wrapped_reply)) long_request
  = Reply 200 (wrapped_report (description_of long_request)).
Proof. vm_compute; reflexivity. Qed.

Lemma model_failure_is_reported_witness :
  @analyze_issue (reference_env (inl "429 quota exceeded")) described_request
  = Reply 500 {[ "error" := JStr ("Error: " ++ "429 quota exceeded") ]}.
Proof.
  apply (@model_failure_is_reported (reference_env (inl "429 quota exceeded"))
           described_request [PText (prompt_text "pothole")]).
  - vm_compute; reflexivity.
  - vm_compute; reflexivity.
  - reflexivity.
Defined.

Lemma report_requires_parsed_object_witness :
  exists (parts : list (part (@image (reference_env (inr wrapped_reply)))))
         (raw : string) (analysis : gmap string json),
    (@gemini_parts (reference_env (inr wrapped_reply))
       (description_of described_request) (described_request !! "image")
       (Frame None 0)).2 = inr parts
    /\ @generate_content (reference_env (inr wrapped_reply)) parts
         generation_config = inr raw
    /\ @json_loads (reference_env (inr wrapped_reply)) (extract_json raw)
       = inr (JDict analysis)
    /\ wrapped_report (description_of described_request)
       = @report_of (reference_env (inr wrapped_reply)) analysis
           (description_of described_request)
           (Reference.clock 0) (Reference.clock 1) (Reference.clock 2).
Proof.
  exact (@report_requires_parsed_object (reference_env (inr wrapped_reply))
           described_request _ wrapped_run).
Defined.

Lemma raw_response_only_on_parse_failure_witness :
  500 = 500
  /\ exists (parts : list (part (@image (reference_env (inr broken_reply)))))
            (raw msg : string),
       (@gemini_parts (reference_env (inr broken_reply))
          (description_of described_request) (described_request !! "image")
          (Frame None 0)).2 = inr parts
       /\ @generate_content (reference_env (inr broken_reply)) parts
            generation_config = inr raw
       /\ @json_loads (reference_env (inr broken_reply)) (extract_json raw)
          = inl msg
       /\ ({[ "error" := JStr "Failed to parse AI response: Expecting value";
              "raw_response" := JStr "{oops}" ]} : gmap string json) !! "error"
          = Some (JStr ("Failed to parse AI response: " ++ msg))
       /\ JStr "{oops}" = JStr (PyStr.take 500 (extract_json raw))
       /\ (String.length (PyStr.take 500 (extract_json raw)) <= 500)%nat.
Proof.
  apply (@raw_response_only_on_parse_failure (reference_env (inr broken_reply))
           described_request 500
           {[ "error" := JStr "Failed to parse AI response: Expecting value";
              "raw_response" := JStr "{oops}" ]} (JStr "{oops}")).
  - vm_compute; reflexivity.
  - vm_compute; reflexivity.
Defined.

Lemma report_has_exactly_the_schema_witness :
  wrapped_report (description_of described_request) !! "status"
  = Some (JStr "submitted").
Proof.
  exact (proj1 (proj2 (@report_has_exactly_the_schema
                         (reference_env (inr wrapped_reply))
                         described_request _ wrapped_run))).
Defined.

Lemma empty_image_is_no_image_witness :
  @analyze_issue (reference_env (inr wrapped_reply)) empty_image_request
  = @analyze_issue (reference_env (inr wrapped_reply))
      (delete "image" empty_image_request).
Proof.
  apply (@empty_image_is_no_image (reference_env (inr wrapped_reply))
           empty_image_request).
  vm_compute; reflexivity.
Defined.

Lemma location_description_is_cut_at_200_witness :
  exists (loc : gmap string json) (shown : string),
    wrapped_report (description_of long_request) !! "location" = Some (JDict loc)
    /\ loc !! "description" = Some (JStr shown)
    /\ String.length shown
       = Nat.min 200 (String.length (description_of long_request))
    /\ ((String.length (description_of long_request) <= 200)%nat ->
        shown = description_of long_request).
Proof.
  exact (@location_description_is_cut_at_200 (reference_env (inr wrapped_reply))
           long_request _ long_run).
Defined.

Lemma health_names_the_report_model_witness :
  exists body : gmap string json,
    health_check = (200, JDict body)
    /\ body !! "status" = Some (JStr "healthy")
    /\ body !! "ai_model"
       = wrapped_report (description_of described_request) !! "ai_model".
Proof.
  exact (@health_names_the_report_model (reference_env (inr wrapped_reply))
           described_request _ wrapped_run).
Defined.
